(** * The Principia backend: request orchestration of [app.py]

    A shallow embedding of the three JSON handlers of [app.py]
    ([analyze], [convert_format], [ocr]) together with the text clean-up
    they apply to model replies, and the properties of the written
    specification checked against them.

    Conventions.
    - A Python [str] is a sequence of Unicode code points: [list N].
    - A parsed JSON document is a [value] (what [json.loads] builds).
    - The handlers run in a small monad that threads the log of
      [chat.completions.create] calls and may raise.
    - What lies outside the repository (the OpenAI SDK, the remote
      model, [str()] of non-string objects, the encoding of standard
      output) is collected in [Env]. *)

From Stdlib Require Import List NArith ZArith Bool Lia.
From Stdlib Require Import Strings.String Strings.Ascii.
From Stdlib Require Import Floats.SpecFloat.
Import ListNotations.

(* ================================================================== *)
(** * Python strings *)

Module PyStr.

Definition char := N.
Definition str := list char.

(** An ASCII literal of the source, as code points. *)
Definition lit (s : string) : str :=
  List.map N_of_ascii (list_ascii_of_string s).

Definition nl : str := [10%N].
Definition dq : str := [34%N].

Definition eqb (a b : str) : bool :=
  if list_eq_dec N.eq_dec a b then true else false.

(** Code points that [str.strip()] removes (those with [str.isspace]). *)
Definition isspace (c : char) : bool :=
  ((9 <=? c) && (c <=? 13) || (28 <=? c) && (c <=? 32)
   || (c =? 133) || (c =? 160) || (c =? 5760)
   || (8192 <=? c) && (c <=? 8202)
   || (c =? 8232) || (c =? 8233) || (c =? 8239) || (c =? 8287)
   || (c =? 12288))%N.

Fixpoint lstrip (s : str) : str :=
  match s with
  | c :: s' => if isspace c then lstrip s' else s
  | [] => []
  end.

Definition rstrip (s : str) : str := rev (lstrip (rev s)).

(** [s.strip()] *)
Definition strip (s : str) : str := rstrip (lstrip s).

(** [s.startswith(p)] *)
Fixpoint startswith (s p : str) : bool :=
  match p, s with
  | [], _ => true
  | a :: p', b :: s' => (a =? b)%N && startswith s' p'
  | _ :: _, [] => false
  end.

(** [s.endswith(p)] *)
Definition endswith (s p : str) : bool := startswith (rev s) (rev p).

(** [s[n:]] for a literal [n >= 0] *)
Definition slice_from (n : nat) (s : str) : str := skipn n s.

(** [s[:-n]] for a literal [n > 0] *)
Definition slice_to_neg (n : nat) (s : str) : str :=
  firstn (List.length s - n) s.

(** [s.split('\n', 1)]: one split at the first newline, if any. *)
Fixpoint split_nl_1 (s : str) : list str :=
  match s with
  | [] => [[]]
  | c :: s' =>
      if (c =? 10)%N then [[]; s']
      else match split_nl_1 s' with
           | h :: t => (c :: h) :: t
           | [] => [[c]]
           end
  end.

(** [x in s] for strings: [x] occurs in [s] as a contiguous run. *)
Fixpoint contains (s x : str) : bool :=
  startswith s x ||
  match s with
  | [] => false
  | _ :: s' => contains s' x
  end.

(** The same, as a proposition. *)
Definition substring (x s : str) : Prop :=
  exists pre post, s = pre ++ x ++ post.

End PyStr.
Import PyStr.

(* ================================================================== *)
(** * Response clean-up (the fence stripping of the three handlers) *)

Module Sanitizer.

Definition fence : str := lit "```".

(** [analyze], lines 135-143: the visualization text.
<<
  visualization = viz_response.choices[0].message.content.strip()
  if visualization.startswith("```html"): visualization = visualization[7:]
  if visualization.startswith("```"):     visualization = visualization[3:]
  if visualization.endswith("```"):       visualization = visualization[:-3]
>> *)
Definition clean_visualization (raw : str) : str :=
  let v := strip raw in
  let v := if startswith v (lit "```html") then slice_from 7 v else v in
  let v := if startswith v fence then slice_from 3 v else v in
  let v := if endswith v fence then slice_to_neg 3 v else v in
  v.

(** [convert_format], lines 226-236.  [None] stands for the
    [IndexError] of [converted.split('\n', 1)[1]].
<<
  converted = response.choices[0].message.content.strip()
  if converted.startswith("```latex") or converted.startswith("```markdown"):
      converted = converted.split('\n', 1)[1]
  if converted.startswith("```"): converted = converted[3:]
  if converted.endswith("```"):   converted = converted[:-3]
  ... converted.strip()
>> *)
Definition clean_converted (raw : str) : option str :=
  let v := strip raw in
  match
    (if startswith v (lit "```latex") || startswith v (lit "```markdown")
     then nth_error (split_nl_1 v) 1
     else Some v)
  with
  | None => None
  | Some v =>
      let v := if startswith v fence then slice_from 3 v else v in
      let v := if endswith v fence then slice_to_neg 3 v else v in
      Some (strip v)
  end.

(** [ocr], lines 309-318.
<<
  latex_code = response.choices[0].message.content.strip()
  if latex_code.startswith("```latex"): latex_code = latex_code[8:]
  if latex_code.startswith("```"):      latex_code = latex_code[3:]
  if latex_code.endswith("```"):        latex_code = latex_code[:-3]
  ... latex_code.strip()
>> *)
Definition clean_latex (raw : str) : str :=
  let v := strip raw in
  let v := if startswith v (lit "```latex") then slice_from 8 v else v in
  let v := if startswith v fence then slice_from 3 v else v in
  let v := if endswith v fence then slice_to_neg 3 v else v in
  strip v.

End Sanitizer.
Import Sanitizer.

(* ================================================================== *)
(** * Python values, exceptions and the world outside the repository *)

Module Py.

Set Warnings "-register-all".

(** What [request.json] and the handlers manipulate: the objects that
    [json.loads] builds.  A [dict] is kept as an association list read
    by its first matching key. *)
Inductive value : Type :=
| VNone
| VBool (b : bool)
| VInt (z : Z)
| VFloat (f : spec_float)
| VStr (s : str)
| VList (l : list value)
| VDict (d : list (str * value)).

(** Truth value of an object, as tested by [if x], [not x], [x and y]. *)
Definition truthy (v : value) : bool :=
  match v with
  | VNone => false
  | VBool b => b
  | VInt z => negb (z =? 0)%Z
  | VFloat (S754_zero _) => false
  | VFloat _ => true
  | VStr s => negb (PyStr.eqb s [])
  | VList l => match l with [] => false | _ => true end
  | VDict d => match d with [] => false | _ => true end
  end.

Definition type_name (v : value) : str :=
  match v with
  | VNone => lit "NoneType"
  | VBool _ => lit "bool"
  | VInt _ => lit "int"
  | VFloat _ => lit "float"
  | VStr _ => lit "str"
  | VList _ => lit "list"
  | VDict _ => lit "dict"
  end.

Fixpoint lookup (k : str) (d : list (str * value)) : option value :=
  match d with
  | [] => None
  | (k', v) :: d' => if PyStr.eqb k k' then Some v else lookup k d'
  end.

(** [v == 'tex'] and the like: equality of an object with a string. *)
Definition eq_str (v : value) (s : str) : bool :=
  match v with
  | VStr s' => PyStr.eqb s' s
  | _ => false
  end.

(** The exceptions that reach the handlers' [except Exception as e]. *)
Inductive exn : Type :=
| AttributeError (ty attr : str)
| IndexError
| External (msg : str).

(** [str(e)] *)
Definition exn_str (e : exn) : str :=
  match e with
  | AttributeError ty attr =>
      lit "'" ++ ty ++ lit "' object has no attribute '" ++ attr ++ lit "'"
  | IndexError => lit "list index out of range"
  | External msg => msg
  end.

(** One [client.chat.completions.create(...)] invocation: the client's
    credentials and the keyword arguments. *)
Record call : Type := Call {
  api_key : value;
  base_url : value;
  model : value;
  messages : value;
  max_tokens : option Z
}.

(** What such an invocation yields: an exception with its [str(e)], or
    a completion, of which the handlers read
    [.choices[i].message.content] (a string or [None]). *)
Inductive reply : Type :=
| Raises (msg : str)
| Completion (choices : list (option str)).

(** The collaborators that are not code of this repository.
    - [format_obj v]: the text an f-string inserts for a non-string [v].
    - [openai_init k u]: [OpenAI(api_key=k, base_url=u)]; [Some msg]
      when the constructor raises.
    - [chat_create log c]: the outcome of call [c] after the calls of
      [log] were made in the same request.
    - [print_raises text]: [Some msg] when [print(text)] raises, as it
      does with [UnicodeEncodeError] on a text that standard output
      cannot encode (a lone surrogate, which [json.loads] accepts).
      It is consulted for the one progress line whose text comes from
      the request, line 176; the other progress lines are fixed ASCII
      texts. *)
Record Env : Type := {
  format_obj : value -> str;
  openai_init : value -> value -> option str;
  chat_create : list call -> call -> reply;
  print_raises : str -> option str
}.

(** [f"{v}"] *)
Definition fmt (env : Env) (v : value) : str :=
  match v with
  | VStr s => s
  | _ => format_obj env v
  end.

(** The value [request.json] evaluates to, or the exception it raises
    (no JSON content type, body that does not parse). *)
Inductive request : Type :=
| BadBody (msg : str)
| Body (data : value).

(** [jsonify(obj), status] *)
Record response : Type := Response {
  json : value;
  status : Z
}.

End Py.
Import Py.

(* ================================================================== *)
(** * The handler monad: a log of model calls, and exceptions *)

Module Run.

Inductive result (A : Type) : Type :=
| Ok (a : A)
| Raise (e : exn).
Arguments Ok {A} a.
Arguments Raise {A} e.

Definition M (A : Type) : Type := list call -> result A * list call.

Definition ret {A} (a : A) : M A := fun log => (Ok a, log).

Definition raise {A} (e : exn) : M A := fun log => (Raise e, log).

Definition bind {A B} (m : M A) (k : A -> M B) : M B :=
  fun log =>
    match m log with
    | (Ok a, log') => k a log'
    | (Raise e, log') => (Raise e, log')
    end.

End Run.
Import Run.

Declare Scope py_scope.
Delimit Scope py_scope with py.
Notation "x <- m ;; k" := (bind m (fun x => k))
  (at level 61, m at next level, right associativity) : py_scope.
Open Scope py_scope.

(* ================================================================== *)
(** * Prompt texts (the f-strings of the handlers, line by line) *)

Module Prompts.

Definition explanation_prompt (context full_context : str) : str :=
  List.concat [
    nl;
    lit "        You are an expert physics and mathematics tutor."; nl;
    lit "        "; nl;
    lit "        Target Formula/Concept: "; dq; context; dq; nl;
    lit "        "; nl;
    lit "        Full Document Context:"; nl;
    lit "        "; dq; full_context; dq; nl;
    lit "        "; nl;
    lit "        Task:"; nl;
    lit "        1. Analyze the "; dq; lit "Target Formula/Concept"; dq; lit " within the context of the "; dq; lit "Full Document Context"; dq; lit "."; nl;
    lit "        2. Provide a brief, clear, and insightful explanation. Focus on the "; dq; lit "why"; dq; lit " and "; dq; lit "how"; dq; lit "."; nl;
    lit "        3. **LANGUAGE DETECTION**: Detect the language used in the "; dq; lit "Full Document Context"; dq; lit " (e.g., English, Chinese, French). "; nl;
    lit "        4. **OUTPUT LANGUAGE**: Your explanation MUST be in the SAME language as the "; dq; lit "Full Document Context"; dq; lit ". If the context is mixed, prioritize the language of the descriptive text surrounding the formula."; nl;
    lit "        5. **MATH RENDERING**: If your explanation includes mathematical formulas, YOU MUST wrap them in standard LaTeX math delimiters:"; nl;
    lit "           - Use $...$ for inline math (e.g., $E=mc^2$)."; nl;
    lit "           - Use $$...$$ for display math."; nl;
    lit "           - DO NOT use markdown code blocks for math."; nl;
    lit "        6. Return ONLY the explanation text."; nl;
    lit "        "
  ].

Definition viz_prompt (context explanation full_context : str) : str :=
  List.concat [
    nl;
    lit "        You are an expert frontend developer and physics simulation specialist."; nl;
    lit "        "; nl;
    lit "        Task: Create a **Dynamic, Interactive Physics Simulation** using HTML5 Canvas and JavaScript."; nl;
    lit "        "; nl;
    lit "        **Source Material**:"; nl;
    lit "        1. **Target Concept**: "; dq; context; dq; nl;
    lit "        2. **Physics Logic (Source of Truth for Formulas)**: "; nl;
    lit "           "; dq; explanation; dq; nl;
    lit "        3. **Scenario Context (Source of Truth for Environment/Parameters)**: "; nl;
    lit "           "; dq; full_context; dq; nl;
    lit "        "; nl;
    lit "        **Implementation Strategy**:"; nl;
    lit "        1. **Analyze the Physics**: Use the "; dq; lit "Physics Logic"; dq; lit " to determine the governing equations (kinematics, dynamics, wave equations, etc.)."; nl;
    lit "        2. **Extract Parameters**: Scan the "; dq; lit "Scenario Context"; dq; lit " for specific values (e.g., "; dq; lit "velocity of 20m/s"; dq; lit ", "; dq; lit "angle of 45 degrees"; dq; lit ", "; dq; lit "mass of 5kg"; dq; lit "). "; nl;
    lit "           - **CRITICAL**: If the context mentions specific numbers, YOU MUST set them as the initial values for your simulation variables."; nl;
    lit "        3. **Design the Visuals**: Use the "; dq; lit "Scenario Context"; dq; lit " to decide what to draw (e.g., if it mentions a "; dq; lit "cliff"; dq; lit ", draw a cliff; if "; dq; lit "spring"; dq; lit ", draw a spring)."; nl;
    lit "        "; nl;
    lit "        CRITICAL REQUIREMENTS:"; nl;
    lit "        1. **Relevance**: The simulation MUST directly visualize the specific physics concept described."; nl;
    lit "           - Use the context to understand specific scenarios."; nl;
    lit "           - If it's a projectile, show a projectile."; nl;
    lit "           - If it's a wave, show a wave."; nl;
    lit "           - If it's a field, show vector fields or particles in a field."; nl;
    lit "           - **DO NOT default to a pendulum or spring unless the concept specifically calls for it.**"; nl;
    lit "        "; nl;
    lit "        2. **Physics Accuracy**: Use `requestAnimationFrame` to animate the system based on real physics equations derived from the concept."; nl;
    lit "        "; nl;
    lit "        3. **Interactivity**: Include HTML range sliders to adjust key parameters relevant to the specific model (e.g., initial velocity, charge, frequency, mass)."; nl;
    lit "        "; nl;
    lit "        4. **Style**: "; nl;
    lit "          - Background: Dark (`#000` or `#111`)."; nl;
    lit "          - Text: Light (`#eee`)."; nl;
    lit "          - Controls: Minimalist, styled for dark mode."; nl;
    lit "        "; nl;
    lit "        5. **Language Adaptation**:"; nl;
    lit "          - **LANGUAGE DETECTION**: Detect the language used in the "; dq; lit "Full Document Context"; dq; lit " (e.g., English, Chinese, French)."; nl;
    lit "          - **OUTPUT LANGUAGE**: Any text displayed in the simulation (labels, titles, slider names, instructions) MUST be in the SAME language as the "; dq; lit "Full Document Context"; dq; lit ". If the context is mixed, prioritize the language of the descriptive text surrounding the formula."; nl;
    nl;
    lit "        6. **Output Format**:"; nl;
    lit "          - Return **ONLY** the HTML snippet containing the container `div`, controls, and the `script` tag."; nl;
    lit "          - Do NOT include `<html>`, `<head>`, `<body>`, or markdown code fences."; nl;
    lit "          - The root container must have `width: 100%; height: 300px;`."; nl;
    lit "        "
  ].

Definition tex_prompt (content : str) : str :=
  List.concat [
    nl;
    lit "            Convert the following Markdown/LaTeX mixed content into a pure, compile-ready LaTeX document body."; nl;
    lit "            "; nl;
    lit "            Rules:"; nl;
    lit "            1. Convert Markdown headers (#, ##) to LaTeX sections (\section, \subsection)."; nl;
    lit "            2. Convert Markdown lists (- , 1.) to LaTeX lists (itemize, enumerate)."; nl;
    lit "            3. Convert Markdown bold/italic to LaTeX (\textbf, \textit)."; nl;
    lit "            4. **COLOR PRESERVATION**:"; nl;
    lit "               - Keep `\textcolor{color}{text}` as is."; nl;
    lit "               - Convert `<font color="; dq; lit "color"; dq; lit ">text</font>` to `\textcolor{color}{text}` (if present)."; nl;
    lit "               - Convert `<span style="; dq; lit "color: color"; dq; lit ">text</span>` to `\textcolor{color}{text}` (if present)."; nl;
    lit "            5. Keep existing LaTeX math ($...$, $$...$$) unchanged."; nl;
    lit "            6. Return ONLY the converted LaTeX body code. Do NOT wrap in \documentclass."; nl;
    lit "            7. Do not include markdown code fences."; nl;
    lit "            "; nl;
    lit "            Content:"; nl;
    lit "            "; dq; content; dq; nl;
    lit "            "
  ].

Definition md_prompt (content : str) : str :=
  List.concat [
    nl;
    lit "            Convert the following LaTeX content into clean Markdown."; nl;
    lit "            "; nl;
    lit "            Rules:"; nl;
    lit "            1. **COLOR PRESERVATION (HIGHEST PRIORITY)**: "; nl;
    lit "               - **KEEP** `\textcolor{color}{text}` commands AS IS. "; nl;
    lit "               - **DO NOT** convert color to bold (`**`) or italic (`*`)."; nl;
    lit "               - **DO NOT** convert color to HTML."; nl;
    lit "               - Convert `{\color{color} text}` to `\textcolor{color}{text}`."; nl;
    lit "            2. Convert LaTeX sections (\section, \subsection) to Markdown headers (#, ##)."; nl;
    lit "            3. Convert LaTeX lists to Markdown lists."; nl;
    lit "            4. Convert LaTeX text formatting (\textbf, \textit) to Markdown (**...**, *...*)."; nl;
    lit "               - Only convert `\textbf` and `\textit`. DO NOT touch `\textcolor`."; nl;
    lit "            5. Keep LaTeX math ($...$, $$...$$) unchanged."; nl;
    lit "            6. Return ONLY the converted Markdown content."; nl;
    lit "            7. Do not include markdown code fences."; nl;
    lit "            "; nl;
    lit "            Content:"; nl;
    lit "            "; dq; content; dq; nl;
    lit "            "
  ].

Definition ocr_base_prompt : str :=
  List.concat [
    lit "Transcribe this handwritten note into valid XeLaTeX code."; nl;
    nl;
    lit "RULES:"; nl;
    lit "1. Return ONLY the body content (formulas, text, etc.)."; nl;
    lit "2. Do NOT include \documentclass, \begin{document}, \maketitle, or \end{document}."; nl;
    lit "3. Assume standard packages (amsmath, amssymb, geometry, xcolor) are already loaded."; nl;
    lit "4. Use standard LaTeX math mode ($...$ for inline, $$...$$ for display)."; nl;
    lit "5. Correct any obvious physical or mathematical errors based on context."; nl;
    lit "6. Return ONLY the LaTeX code, no markdown fencing."; nl;
    lit "7. **COLOR DETECTION**: "; nl;
    lit "   - Detect the color of the handwritten strokes."; nl;
    lit "   - If the handwriting is **RED**, wrap the corresponding LaTeX text/formula in \textcolor{red}{...}."; nl;
    lit "   - If the handwriting is another distinct color (e.g., blue, green), use \textcolor{name}{...} accordingly."; nl;
    lit "   - Default/White/Black text should NOT have color commands."; nl
  ].


(** [ocr], lines 282-286: the stitching blocks appended to the base
    prompt.  The tests are Python truth tests on the request fields. *)
Definition previous_block (previous_context : str) : str :=
  List.concat [
    nl; nl;
    lit "PREVIOUS CONTEXT (The text immediately preceding this image):"; nl;
    lit "..."; previous_context; nl; nl;
    lit "INSTRUCTION: Ensure your transcription flows naturally from this previous context."
  ].

Definition next_block (next_context : str) : str :=
  List.concat [
    nl; nl;
    lit "NEXT CONTEXT (The text immediately following this image):"; nl;
    next_context; lit "..."; nl; nl;
    lit "INSTRUCTION: Ensure your transcription connects smoothly to this next context."
  ].

Definition ocr_system_prompt (env : Env) (previous_context next_context : value) : str :=
  let system_prompt := ocr_base_prompt in
  let system_prompt :=
    if truthy previous_context
    then system_prompt ++ previous_block (fmt env previous_context)
    else system_prompt in
  let system_prompt :=
    if truthy next_context
    then system_prompt ++ next_block (fmt env next_context)
    else system_prompt in
  system_prompt.

(** [convert_format], lines 178-217: the template chosen by
    [target_format == 'tex']. *)
Definition convert_prompt (env : Env) (target_format content : value) : str :=
  if eq_str target_format (lit "tex")
  then tex_prompt (fmt env content)
  else md_prompt (fmt env content).

End Prompts.
Import Prompts.

(* ================================================================== *)
(** * The handlers *)

Module App.

Section Handlers.

Variable env : Env.

(** [d.get(key, default)] on a [dict]. *)
Definition field (d : list (str * value)) (key : string) (default : value) : value :=
  match lookup (lit key) d with
  | Some v => v
  | None => default
  end.

(** [obj.get(key, default)]; an object that is not a [dict] has no
    [get]. *)
Definition get (obj : value) (key : string) (default : value) : M value :=
  match obj with
  | VDict d => ret (field d key default)
  | _ => raise (AttributeError (type_name obj) (lit "get"))
  end.

(** [config and config.get('apiKey')], as a truth value. *)
Definition has_api_key (config : value) : M bool :=
  if truthy config
  then k <- get config "apiKey" VNone ;; ret (truthy k)
  else ret false.

(** [data = request.json] *)
Definition request_json (rq : request) : M value :=
  match rq with
  | BadBody msg => raise (External msg)
  | Body data => ret data
  end.

(** [OpenAI(api_key=config.get('apiKey'), base_url=config.get('baseUrl'))]
    followed by [config.get('model')]: the client of a role, as the
    credentials and the model name its calls will carry. *)
Definition make_client (config : value) : M (value * value * value) :=
  k <- get config "apiKey" VNone ;;
  u <- get config "baseUrl" VNone ;;
  match openai_init env k u with
  | Some msg => raise (External msg)
  | None => m <- get config "model" VNone ;; ret (k, u, m)
  end.

(** [client.chat.completions.create(model=..., messages=..., ...)]:
    the call is appended to the log whether it returns or raises. *)
Definition create (client : value * value * value) (msgs : value)
    (cap : option Z) : M (list (option str)) :=
  fun log =>
    let '(k, u, m) := client in
    let c := Call k u m msgs cap in
    match chat_create env log c with
    | Raises msg => (Raise (External msg), log ++ [c])
    | Completion choices => (Ok choices, log ++ [c])
    end.

(** [response.choices[0].message.content] *)
Definition first_content (choices : list (option str)) : M (option str) :=
  match choices with
  | [] => raise IndexError
  | content :: _ => ret content
  end.

(** [content.strip()], where [content] may be [None]. *)
Definition strip_content (content : option str) : M str :=
  match content with
  | None => raise (AttributeError (lit "NoneType") (lit "strip"))
  | Some text => ret (strip text)
  end.

(** Lifting of the clean-up functions, which start with that [strip()]. *)
Definition cleaned (clean : str -> option str) (content : option str) : M str :=
  match content with
  | None => raise (AttributeError (lit "NoneType") (lit "strip"))
  | Some text =>
      match clean text with
      | None => raise IndexError
      | Some s => ret s
      end
  end.

Definition message (role : string) (content : value) : value :=
  VDict [(lit "role", VStr (lit role)); (lit "content", content)].

Definition error (msg : str) (code : Z) : response :=
  Response (VDict [(lit "error", VStr msg)]) code.

Definition reasoning_missing : response :=
  error (lit "Reasoning API configuration missing. Please configure settings.") 401.

Definition vision_missing : response :=
  error (lit "Vision API configuration missing. Please configure settings.") 401.

(** [try: ... except Exception as e: return jsonify({'error': str(e)}), 500]
    around a handler body that starts with an empty call log. *)
Definition try_except (body : M response) : response * list call :=
  match body [] with
  | (Ok r, log) => (r, log)
  | (Raise e, log) => (error (exn_str e) 500, log)
  end.

(** ** [analyze] *)

Definition explanation_messages (prompt : str) : value :=
  VList [message "system" (VStr (lit "You are a helpful physics tutor."));
         message "user" (VStr prompt)].

Definition viz_messages (prompt : str) : value :=
  VList [message "system"
           (VStr (lit "You are a code generator. Output raw HTML/JS only."));
         message "user" (VStr prompt)].

(** Lines 70-148: the visualization stage, entered with the explanation. *)
Definition analyze_visualize (context full_context : value) (explanation : str)
    (vision_config : value) : M response :=
  configured <- has_api_key vision_config ;;
  if negb configured then ret vision_missing
  else
    viz_client <- make_client vision_config ;;
    let viz_prompt :=
      viz_prompt (fmt env context) explanation (fmt env full_context) in
    viz_response <- create viz_client (viz_messages viz_prompt) None ;;
    content <- first_content viz_response ;;
    visualization <- cleaned (fun raw => Some (clean_visualization raw)) content ;;
    ret (Response
           (VDict [(lit "explanation", VStr explanation);
                   (lit "visualization", VStr visualization)])
           200).

(** Lines 25-68, then the visualization stage. *)
Definition analyze_pipeline (context full_context reasoning_config
    vision_config : value) : M response :=
  if negb (truthy context)
  then ret (error (lit "No context provided") 400)
  else
    configured <- has_api_key reasoning_config ;;
    if negb configured then ret reasoning_missing
    else
      current_reasoning_client <- make_client reasoning_config ;;
      let explanation_prompt :=
        explanation_prompt (fmt env context) (fmt env full_context) in
      explanation_response <-
        create current_reasoning_client
          (explanation_messages explanation_prompt) None ;;
      content <- first_content explanation_response ;;
      explanation <- strip_content content ;;
      analyze_visualize context full_context explanation vision_config.

(** Lines 17-152. *)
Definition analyze (rq : request) : response * list call :=
  try_except (
    data <- request_json rq ;;
    context <- get data "context" (VStr []) ;;
    full_context <- get data "fullContext" (VStr []) ;;
    reasoning_config <- get data "reasoningConfig" (VDict []) ;;
    vision_config <- get data "visionConfig" (VDict []) ;;
    analyze_pipeline context full_context reasoning_config vision_config).

(** ** [convert_format] *)

(** [print(text)] *)
Definition print (text : str) : M unit :=
  match print_raises env text with
  | Some msg => raise (External msg)
  | None => ret tt
  end.

Definition convert_messages (prompt : str) : value :=
  VList [message "system" (VStr (lit "You are a document format converter."));
         message "user" (VStr prompt)].

(** Lines 162-236. *)
Definition convert_pipeline (content target_format reasoning_config : value)
    : M response :=
  if negb (truthy content)
  then ret (error (lit "No content provided") 400)
  else
    configured <- has_api_key reasoning_config ;;
    if negb configured then ret reasoning_missing
    else
      client <- make_client reasoning_config ;;
      printed <-
        print (lit "Requesting format conversion to "
               ++ fmt env target_format ++ lit "...") ;;
      let prompt := convert_prompt env target_format content in
      response <- create client (convert_messages prompt) None ;;
      content <- first_content response ;;
      converted <- cleaned clean_converted content ;;
      ret (Response (VDict [(lit "converted", VStr converted)]) 200).

(** Lines 155-240. *)
Definition convert_format (rq : request) : response * list call :=
  try_except (
    data <- request_json rq ;;
    content <- get data "content" (VStr []) ;;
    target_format <- get data "targetFormat" (VStr (lit "tex")) ;;
    reasoning_config <- get data "reasoningConfig" (VDict []) ;;
    convert_pipeline content target_format reasoning_config).

(** ** [ocr] *)

Definition ocr_messages (system_prompt : str) (image_data : value) : value :=
  VList [message "user"
           (VList [VDict [(lit "type", VStr (lit "text"));
                          (lit "text", VStr system_prompt)];
                   VDict [(lit "type", VStr (lit "image_url"));
                          (lit "image_url", VDict [(lit "url", image_data)])]])].

(** Lines 251-318. *)
Definition ocr_pipeline (image_data vision_config previous_context
    next_context : value) : M response :=
  if negb (truthy image_data)
  then ret (error (lit "No image provided") 400)
  else
    configured <- has_api_key vision_config ;;
    if negb configured then ret vision_missing
    else
      current_vision_client <- make_client vision_config ;;
      let system_prompt := ocr_system_prompt env previous_context next_context in
      response <-
        create current_vision_client (ocr_messages system_prompt image_data)
          (Some 2000%Z) ;;
      content <- first_content response ;;
      latex_code <- cleaned (fun raw => Some (clean_latex raw)) content ;;
      ret (Response (VDict [(lit "latex", VStr latex_code)]) 200).

(** Lines 243-322. *)
Definition ocr (rq : request) : response * list call :=
  try_except (
    data <- request_json rq ;;
    image_data <- get data "image" (VStr []) ;;
    vision_config <- get data "visionConfig" (VDict []) ;;
    previous_context <- get data "previousContext" (VStr []) ;;
    next_context <- get data "nextContext" (VStr []) ;;
    ocr_pipeline image_data vision_config previous_context next_context).

End Handlers.

End App.
Import App.

(* ================================================================== *)
(** * Vocabulary of the specification *)

Module Spec.

(** A text in which no step of the clean-up finds anything to remove. *)
Definition fence_free (s : str) : Prop :=
  startswith s fence = false /\ endswith s fence = false.

(** A configuration block the resolver rejects: a false object (absent
    blocks default to [{}]), or a [dict] whose [apiKey] is absent or
    false. *)
Definition unconfigured (config : value) : Prop :=
  truthy config = false \/
  exists d, config = VDict d /\ truthy (field d "apiKey" VNone) = false.

(** A configuration block the resolver accepts. *)
Definition configured (config : value) : Prop :=
  exists d, config = VDict d /\ truthy (field d "apiKey" VNone) = true.

(** The call a client built from [config] makes. *)
Definition call_with (config : value) (msgs : value) (cap : option Z) : call :=
  match config with
  | VDict d =>
      Call (field d "apiKey" VNone) (field d "baseUrl" VNone)
           (field d "model" VNone) msgs cap
  | _ => Call VNone VNone VNone msgs cap
  end.

(** The constructor accepts the credentials of [config]. *)
Definition client_builds (env : Env) (config : value) : Prop :=
  match config with
  | VDict d =>
      openai_init env (field d "apiKey" VNone) (field d "baseUrl" VNone) = None
  | _ => False
  end.

Inductive endpoint : Type := Analyze | Convert | Ocr.

Definition serve (env : Env) (ep : endpoint) (rq : request)
    : response * list call :=
  match ep with
  | Analyze => analyze env rq
  | Convert => convert_format env rq
  | Ocr => ocr env rq
  end.

(** The field each endpoint insists on. *)
Definition input_key (ep : endpoint) : string :=
  match ep with
  | Analyze => "context"
  | Convert => "content"
  | Ocr => "image"
  end.

Definition validation_error (ep : endpoint) : response :=
  match ep with
  | Analyze => error (lit "No context provided") 400
  | Convert => error (lit "No content provided") 400
  | Ocr => error (lit "No image provided") 400
  end.

(** The configuration block each endpoint resolves first, and the
    response when that block is rejected. *)
Definition first_config_key (ep : endpoint) : string :=
  match ep with
  | Analyze => "reasoningConfig"
  | Convert => "reasoningConfig"
  | Ocr => "visionConfig"
  end.

Definition first_config_missing (ep : endpoint) : response :=
  match ep with
  | Analyze => reasoning_missing
  | Convert => reasoning_missing
  | Ocr => vision_missing
  end.

(** All the configuration blocks an endpoint needs. *)
Definition config_keys (ep : endpoint) : list string :=
  match ep with
  | Analyze => ["reasoningConfig"%string; "visionConfig"%string]
  | Convert => ["reasoningConfig"%string]
  | Ocr => ["visionConfig"%string]
  end.

(** The required input of a body is missing or empty. *)
Definition input_missing (ep : endpoint) (data : value) : Prop :=
  match data with
  | VDict d => truthy (field d (input_key ep) (VStr [])) = false
  | _ => True
  end.

(** The validation property as the specification words it, for one
    request. *)
Definition rejects_missing_input (env : Env) (ep : endpoint) (data : value)
    : Prop :=
  input_missing ep data ->
  serve env ep (Body data) = (validation_error ep, []).

(** The fail-closed property as the specification words it, for one
    request: some block the endpoint needs is rejected, so the answer
    is a 401 and the log of model calls is empty. *)
Definition fails_closed_without_call (env : Env) (ep : endpoint)
    (d : list (str * value)) : Prop :=
  (exists key, In key (config_keys ep)
               /\ unconfigured (field d key (VDict []))) ->
  (fst (serve env ep (Body (VDict d))) = reasoning_missing
   \/ fst (serve env ep (Body (VDict d))) = vision_missing)
  /\ snd (serve env ep (Body (VDict d))) = [].



Definition previous_instruction : str :=
  lit "INSTRUCTION: Ensure your transcription flows naturally from this previous context.".

Definition next_instruction : str :=
  lit "INSTRUCTION: Ensure your transcription connects smoothly to this next context.".

(** The [except] clause, applied to the outcome of a handler body. *)
Definition caught (out : result response * list call) : response * list call :=
  match out with
  | (Ok r, log) => (r, log)
  | (Raise e, log) => (error (exn_str e) 500, log)
  end.

(** [wp m Q log]: running [m] from [log] ends in a result and a log
    that satisfy [Q]. *)
Definition wp {A} (m : M A) (Q : result A -> list call -> Prop)
    (log : list call) : Prop :=
  Q (fst (m log)) (snd (m log)).

(** The text of the [AttributeError] raised by [obj.get] on an object
    that is not a [dict]. *)
Definition no_get (obj : value) : str :=
  lit "'" ++ type_name obj ++ lit "' object has no attribute 'get'".

End Spec.
Import Spec.

(* ================================================================== *)
(** * Test doubles used by the concrete instances *)

Module Stub.

(** A world in which every client can be built and every model call
    returns one choice carrying [text]. *)
Definition returning (text : str) : Env :=
  {| format_obj := fun _ => lit "<object>";
     openai_init := fun _ _ => None;
     chat_create := fun _ _ => Completion [Some text];
     print_raises := fun _ => None |}.





Definition config (key model : string) : value :=
  VDict [(lit "apiKey", VStr (lit key)); (lit "model", VStr (lit model))].

Definition convert_request (content target_format : value) : request :=
  Body (VDict [(lit "content", content);
               (lit "targetFormat", target_format);
               (lit "reasoningConfig", config "k" "m")]).

Definition html_reply : str :=
  lit "```html" ++ nl ++ lit "<div/>" ++ nl ++ lit "```".

Definition latex_reply : str :=
  lit "```latex" ++ nl ++ lit "$x^2$" ++ nl ++ lit "```".

End Stub.

(* ================================================================== *)
(** * Facts about the string operations *)

Section StringFacts.

Lemma lstrip_idem (s : str) : lstrip (lstrip s) = lstrip s.
Proof.
  induction s as [|c s IH]; simpl; auto.
  destruct (isspace c) eqn:E; auto.
  simpl. now rewrite E.
Qed.

(** Stripping stops at the last character when it is not white space. *)
Lemma lstrip_snoc (s : str) (c : char) :
  isspace c = false -> exists r, lstrip (s ++ [c]) = r ++ [c].
Proof.
  intros E. induction s as [|a s [r IH]]; simpl.
  - rewrite E. now exists [].
  - destruct (isspace a).
    + now exists r.
    + now exists (a :: s).
Qed.

Lemma rstrip_idem (s : str) : rstrip (rstrip s) = rstrip s.
Proof.
  unfold rstrip. now rewrite rev_involutive, lstrip_idem.
Qed.

Lemma lstrip_rstrip (s : str) :
  lstrip s = s -> lstrip (rstrip s) = rstrip s.
Proof.
  destruct s as [|c s]; [reflexivity|].
  simpl. destruct (isspace c) eqn:E.
  - intros H. exfalso.
    assert (L : forall t : str, (List.length (lstrip t) <= List.length t)%nat).
    { induction t as [|a t IH]; simpl; [lia|].
      destruct (isspace a); simpl; lia. }
    specialize (L s). rewrite H in L. simpl in L. lia.
  - intros _. unfold rstrip.
    change (rev (c :: s)) with (rev s ++ [c]).
    destruct (lstrip_snoc (rev s) c E) as [r Hr].
    rewrite Hr, rev_app_distr. simpl. now rewrite E.
Qed.

Lemma strip_idem (s : str) : strip (strip s) = strip s.
Proof.
  unfold strip.
  rewrite (lstrip_rstrip (lstrip s) (lstrip_idem s)).
  apply rstrip_idem.
Qed.

Lemma startswith_app (s p q : str) :
  startswith s (p ++ q) = true -> startswith s p = true.
Proof.
  revert s. induction p as [|a p IH]; intros s; simpl.
  - now destruct s.
  - destruct s as [|b s]; simpl; [discriminate|].
    intros H. apply andb_true_iff in H as [H1 H2].
    rewrite H1. simpl. now apply IH.
Qed.

(** No tagged opener without the bare fence it begins with. *)
Lemma no_fence_no_tag (s : str) (tag : string) :
  startswith s fence = false -> startswith s (fence ++ lit tag) = false.
Proof.
  intros H. destruct (startswith s (fence ++ lit tag)) eqn:E; [|reflexivity].
  apply startswith_app in E. congruence.
Qed.

Lemma startswith_spec (s p : str) :
  startswith s p = true <-> exists post, s = p ++ post.
Proof.
  revert s. induction p as [|a p IH]; intros s; simpl.
  - split; [|now destruct s]. intros _. now exists s.
  - destruct s as [|b s].
    + split; [discriminate|]. intros [post H]. discriminate H.
    + simpl. rewrite andb_true_iff, N.eqb_eq, IH. split.
      * intros [-> [post ->]]. now exists post.
      * intros [post [= -> ->]]. split; [reflexivity|]. now exists post.
Qed.

Lemma contains_spec (s x : str) :
  contains s x = true <-> substring x s.
Proof.
  induction s as [|c s IH]; cbn [contains].
  - rewrite orb_false_r, startswith_spec. split.
    + intros [post H]. now exists [], post.
    + intros (pre & post & H). destruct pre; [|discriminate H].
      now exists post.
  - rewrite orb_true_iff, startswith_spec, IH. split.
    + intros [[post H] | (pre & post & H)].
      * now exists [], post.
      * exists (c :: pre), post. simpl. now rewrite H.
    + intros (pre & post & H). destruct pre as [|c' pre].
      * left. now exists post.
      * right. injection H as _ H. now exists pre, post.
Qed.

Lemma not_contains (s x : str) : contains s x = false -> ~ substring x s.
Proof.
  intros H Hsub. apply contains_spec in Hsub. congruence.
Qed.

Lemma substring_refl (x : str) : substring x x.
Proof. exists [], []. now rewrite app_nil_r. Qed.

Lemma substring_trans (x y z : str) :
  substring x y -> substring y z -> substring x z.
Proof.
  intros (p1 & q1 & ->) (p2 & q2 & ->).
  exists (p2 ++ p1), (q1 ++ q2). now rewrite !app_assoc.
Qed.

Lemma substring_app_l (x s t : str) : substring x s -> substring x (s ++ t).
Proof.
  intros (p & q & ->). exists p, (q ++ t). now rewrite !app_assoc.
Qed.

Lemma substring_app_r (x s t : str) : substring x t -> substring x (s ++ t).
Proof.
  intros (p & q & ->). exists (s ++ p), q. now rewrite !app_assoc.
Qed.

Lemma in_concat_substring (x : str) (pieces : list str) :
  In x pieces -> substring x (List.concat pieces).
Proof.
  intros H. apply in_split in H as (l1 & l2 & ->).
  exists (List.concat l1), (List.concat l2).
  rewrite concat_app. reflexivity.
Qed.

Lemma eqb_eq (a b : str) : PyStr.eqb a b = true <-> a = b.
Proof.
  unfold PyStr.eqb. destruct (list_eq_dec N.eq_dec a b); split;
    congruence.
Qed.

Lemma eq_str_true (v : value) (s : str) : eq_str v s = true <-> v = VStr s.
Proof.
  destruct v; simpl; try (split; [discriminate|intros [=]]).
  rewrite eqb_eq. split; [now intros -> | now intros [= ->]].
Qed.

End StringFacts.

(* ================================================================== *)
(** * Facts about the clean-up functions *)

Section SanitizerFacts.



Lemma clean_visualization_fixed (y : str) :
  strip y = y -> fence_free y -> clean_visualization y = y.
Proof.
  intros Hs [Hp He]. unfold clean_visualization.
  rewrite Hs.
  change (lit "```html") with (fence ++ lit "html").
  rewrite (no_fence_no_tag y "html" Hp).
  now rewrite Hp, He.
Qed.

Lemma clean_latex_fixed (y : str) :
  strip y = y -> fence_free y -> clean_latex y = y.
Proof.
  intros Hs [Hp He]. unfold clean_latex.
  rewrite Hs.
  change (lit "```latex") with (fence ++ lit "latex").
  rewrite (no_fence_no_tag y "latex" Hp).
  now rewrite Hp, He.
Qed.

Lemma clean_converted_fixed (y : str) :
  strip y = y -> fence_free y -> clean_converted y = Some y.
Proof.
  intros Hs [Hp He]. unfold clean_converted.
  rewrite Hs.
  change (lit "```latex") with (fence ++ lit "latex").
  change (lit "```markdown") with (fence ++ lit "markdown").
  rewrite (no_fence_no_tag y "latex" Hp), (no_fence_no_tag y "markdown" Hp).
  simpl orb. cbv iota.
  now rewrite Hp, He, Hs.
Qed.

End SanitizerFacts.

(* ================================================================== *)
(** * Facts about the prompt texts *)

Section PromptFacts.


Lemma previous_block_parts (text : str) :
  substring text (previous_block text)
  /\ substring previous_instruction (previous_block text).
Proof.
  split; apply in_concat_substring; unfold previous_block; cbn [In];
    repeat first [left; reflexivity | right].
Qed.

Lemma next_block_parts (text : str) :
  substring text (next_block text)
  /\ substring next_instruction (next_block text).
Proof.
  split; apply in_concat_substring; unfold next_block; cbn [In];
    repeat first [left; reflexivity | right].
Qed.

Lemma base_prompt_has_no_stitching :
  contains ocr_base_prompt (lit "PREVIOUS CONTEXT") = false
  /\ contains ocr_base_prompt (lit "NEXT CONTEXT") = false
  /\ contains ocr_base_prompt (lit "INSTRUCTION:") = false.
Proof. repeat split; vm_compute; reflexivity. Qed.

Lemma templates_differ (content : str) : tex_prompt content <> md_prompt content.
Proof.
  unfold tex_prompt, md_prompt. intros H.
  apply (f_equal (fun s => nth 35 s 0%N)) in H.
  vm_compute in H. discriminate H.
Qed.

End PromptFacts.

(* ================================================================== *)
(** * Running the handlers step by step *)

Section Steps.

Variable env : Env.

Lemma bind_ok {A B} (m : M A) (k : A -> M B) log a log' :
  m log = (Ok a, log') -> bind m k log = k a log'.
Proof. unfold bind. now intros ->. Qed.

Lemma has_api_key_unconfigured config log :
  unconfigured config -> has_api_key config log = (Ok false, log).
Proof.
  unfold has_api_key. intros [H | (d & -> & H)].
  - now rewrite H.
  - destruct (truthy (VDict d)); [|reflexivity].
    unfold bind, get, ret. now rewrite H.
Qed.

Lemma has_api_key_configured config log :
  configured config -> has_api_key config log = (Ok true, log).
Proof.
  unfold has_api_key. intros (d & -> & H).
  destruct d as [|kv d]; [discriminate H|].
  change (truthy (VDict (kv :: d))) with true. cbv iota.
  unfold bind, get, ret. now rewrite H.
Qed.

Lemma make_client_builds config log :
  configured config -> client_builds env config ->
  exists k u m,
    make_client env config log = (Ok (k, u, m), log)
    /\ forall msgs cap, Call k u m msgs cap = call_with config msgs cap.
Proof.
  intros (d & -> & _) H. simpl in H.
  exists (field d "apiKey" VNone), (field d "baseUrl" VNone), (field d "model" VNone).
  split; [|reflexivity].
  unfold make_client, bind, get, ret. now rewrite H.
Qed.

Lemma create_returns k u m msgs cap log choices :
  chat_create env log (Call k u m msgs cap) = Completion choices ->
  create env (k, u, m) msgs cap log = (Ok choices, log ++ [Call k u m msgs cap]).
Proof. unfold create. now intros ->. Qed.

(** The handlers on a JSON object: the fields are read with their
    defaults and handed to the pipeline. *)
Lemma analyze_object d :
  analyze env (Body (VDict d))
  = try_except
      (analyze_pipeline env
         (field d "context" (VStr [])) (field d "fullContext" (VStr []))
         (field d "reasoningConfig" (VDict [])) (field d "visionConfig" (VDict []))).
Proof. reflexivity. Qed.

Lemma convert_format_object d :
  convert_format env (Body (VDict d))
  = try_except
      (convert_pipeline env
         (field d "content" (VStr [])) (field d "targetFormat" (VStr (lit "tex")))
         (field d "reasoningConfig" (VDict []))).
Proof. reflexivity. Qed.

Lemma ocr_object d :
  ocr env (Body (VDict d))
  = try_except
      (ocr_pipeline env
         (field d "image" (VStr [])) (field d "visionConfig" (VDict []))
         (field d "previousContext" (VStr [])) (field d "nextContext" (VStr []))).
Proof. reflexivity. Qed.

End Steps.

(* ================================================================== *)
(** * Forward runs of the pipelines *)

Section Forward.

Variable env : Env.



(** [ocr] up to its model call. *)
Lemma ocr_called d :
  let image_data := field d "image" (VStr []) in
  let vision_config := field d "visionConfig" (VDict []) in
  let recognise :=
    call_with vision_config
      (ocr_messages
         (ocr_system_prompt env (field d "previousContext" (VStr []))
            (field d "nextContext" (VStr [])))
         image_data)
      (Some 2000%Z) in
  truthy image_data = true ->
  configured vision_config ->
  client_builds env vision_config ->
  ocr env (Body (VDict d))
  = caught
      match chat_create env [] recognise with
      | Raises msg => (Raise (External msg), [recognise])
      | Completion [] => (Raise IndexError, [recognise])
      | Completion (None :: _) =>
          (Raise (AttributeError (lit "NoneType") (lit "strip")), [recognise])
      | Completion (Some raw :: _) =>
          (Ok (Response (VDict [(lit "latex", VStr (clean_latex raw))]) 200),
           [recognise])
      end.
Proof.
  intros image_data vision_config recognise Hin Hcfg Hbuild.
  rewrite ocr_object. unfold try_except, ocr_pipeline.
  fold image_data vision_config.
  rewrite Hin. cbn [negb].
  rewrite (bind_ok _ _ _ _ _ (has_api_key_configured _ _ Hcfg)).
  cbn [negb].
  destruct (make_client_builds env vision_config [] Hcfg Hbuild)
    as (k & u & m & Hclient & Hcall).
  rewrite (bind_ok _ _ _ _ _ Hclient).
  assert (Hc : Call k u m
                 (ocr_messages
                    (ocr_system_prompt env (field d "previousContext" (VStr []))
                       (field d "nextContext" (VStr [])))
                    image_data)
                 (Some 2000%Z) = recognise) by apply Hcall.
  unfold bind at 1. unfold create. rewrite Hc.
  destruct (chat_create env [] recognise) as [msg | [|[raw|] more]]; reflexivity.
Qed.

End Forward.

(* ================================================================== *)
(** * A weakest-precondition reading of the handler monad *)

Section WpRules.

Variable env : Env.

Lemma wp_ret {A} (a : A) Q log : Q (Ok a) log -> wp (ret a) Q log.
Proof. exact (fun H => H). Qed.

Lemma wp_raise {A} (e : exn) (Q : result A -> _) log :
  Q (Raise e) log -> wp (raise e) Q log.
Proof. exact (fun H => H). Qed.

Lemma wp_bind {A B} (m : M A) (k : A -> M B) Q log :
  wp m (fun r log' =>
          match r with
          | Ok a => wp (k a) Q log'
          | Raise e => Q (Raise e) log'
          end) log ->
  wp (bind m k) Q log.
Proof.
  unfold wp, bind. destruct (m log) as [[a|e] log']; simpl; auto.
Qed.

Lemma wp_request_json rq Q log :
  (forall data, rq = Body data -> Q (Ok data) log) ->
  (forall e, Q (Raise e) log) ->
  wp (request_json rq) Q log.
Proof.
  intros Hok Herr. destruct rq as [msg|data]; simpl.
  - apply wp_raise, Herr.
  - apply wp_ret, Hok. reflexivity.
Qed.

Lemma wp_get obj key default Q log :
  (forall d, obj = VDict d -> Q (Ok (field d key default)) log) ->
  (forall e, Q (Raise e) log) ->
  wp (get obj key default) Q log.
Proof.
  intros Hok Herr.
  destruct obj; simpl; try (apply wp_raise, Herr).
  apply wp_ret, Hok. reflexivity.
Qed.

Lemma wp_has_api_key config Q log :
  (configured config -> Q (Ok true) log) ->
  (unconfigured config -> Q (Ok false) log) ->
  (forall e, Q (Raise e) log) ->
  wp (has_api_key config) Q log.
Proof.
  intros Hyes Hno Herr. unfold has_api_key.
  destruct (truthy config) eqn:Ht.
  - apply wp_bind, wp_get; [|exact Herr].
    intros d ->. apply wp_ret.
    destruct (truthy (field d "apiKey" VNone)) eqn:Hk.
    + apply Hyes. now exists d.
    + apply Hno. right. now exists d.
  - apply wp_ret, Hno. now left.
Qed.

Lemma wp_make_client config Q log :
  (forall k u m,
     (forall msgs cap, Call k u m msgs cap = call_with config msgs cap) ->
     client_builds env config ->
     Q (Ok (k, u, m)) log) ->
  (forall e, Q (Raise e) log) ->
  wp (make_client env config) Q log.
Proof.
  intros Hok Herr. unfold make_client.
  apply wp_bind, wp_get; [|exact Herr]. intros d ->.
  apply wp_bind, wp_get; [|exact Herr]. intros d' [= <-].
  destruct (openai_init env _ _) eqn:Hinit.
  - apply wp_raise, Herr.
  - apply wp_bind, wp_get; [|exact Herr]. intros d' [= <-].
    apply wp_ret, Hok; [reflexivity | exact Hinit].
Qed.

Lemma wp_create k u m msgs cap Q log :
  (forall choices,
     chat_create env log (Call k u m msgs cap) = Completion choices ->
     Q (Ok choices) (log ++ [Call k u m msgs cap])) ->
  (forall msg,
     chat_create env log (Call k u m msgs cap) = Raises msg ->
     Q (Raise (External msg)) (log ++ [Call k u m msgs cap])) ->
  wp (create env (k, u, m) msgs cap) Q log.
Proof.
  intros Hok Herr. unfold wp, create.
  destruct (chat_create env log _) eqn:E; simpl; auto.
Qed.

Lemma wp_first_content choices Q log :
  (forall content rest, choices = content :: rest -> Q (Ok content) log) ->
  (forall e, Q (Raise e) log) ->
  wp (first_content choices) Q log.
Proof.
  intros Hok Herr. destruct choices; simpl.
  - apply wp_raise, Herr.
  - apply wp_ret. eapply Hok. reflexivity.
Qed.

Lemma wp_strip_content content Q log :
  (forall text, content = Some text -> Q (Ok (strip text)) log) ->
  (forall e, Q (Raise e) log) ->
  wp (strip_content content) Q log.
Proof.
  intros Hok Herr. destruct content; simpl.
  - apply wp_ret, Hok. reflexivity.
  - apply wp_raise, Herr.
Qed.

Lemma wp_cleaned clean content Q log :
  (forall text s, content = Some text -> clean text = Some s -> Q (Ok s) log) ->
  (forall e, Q (Raise e) log) ->
  wp (cleaned clean content) Q log.
Proof.
  intros Hok Herr. destruct content as [text|]; simpl.
  - destruct (clean text) eqn:E.
    + apply wp_ret. now apply Hok with text.
    + apply wp_raise, Herr.
  - apply wp_raise, Herr.
Qed.

Lemma wp_print text Q log :
  (print_raises env text = None -> Q (Ok tt) log) ->
  (forall e, Q (Raise e) log) ->
  wp (print env text) Q log.
Proof.
  intros Hok Herr. unfold print.
  destruct (print_raises env text) eqn:E.
  - apply wp_raise, Herr.
  - apply wp_ret, Hok. reflexivity.
Qed.

(** The handler's [except] clause turns a raised exception into the
    500 response; the log is what the body left. *)
Lemma wp_try_except body (P : response * list call -> Prop) :
  wp body (fun r log =>
             match r with
             | Ok resp => P (resp, log)
             | Raise e => P (error (exn_str e) 500, log)
             end) [] ->
  P (try_except body).
Proof.
  unfold wp, try_except. destruct (body []) as [[resp|e] log]; simpl; auto.
Qed.

End WpRules.

(** One step through a handler body: split on the next operation. *)
Ltac wp_step :=
  cbv beta iota;
  lazymatch goal with
  | |- wp (bind _ _) _ _ => apply wp_bind
  | |- wp (ret _) _ _ => apply wp_ret
  | |- wp (raise _) _ _ => apply wp_raise
  | |- wp (request_json _) _ _ => apply wp_request_json; [intros ? ?|intros ?]
  | |- wp (get _ _ _) _ _ => apply wp_get; [intros ? ?|intros ?]
  | |- wp (has_api_key _) _ _ =>
      apply wp_has_api_key; [intros ?|intros ?|intros ?]; cbn [negb]
  | |- wp (make_client _ _) _ _ =>
      apply wp_make_client; [intros ? ? ? ? ?|intros ?]
  | |- wp (create _ _ _ _) _ _ => apply wp_create; [intros ? ?|intros ? ?]
  | |- wp (first_content _) _ _ =>
      apply wp_first_content; [intros ? ? ?|intros ?]
  | |- wp (strip_content _) _ _ =>
      apply wp_strip_content; [intros ? ?|intros ?]
  | |- wp (cleaned _ _) _ _ => apply wp_cleaned; [intros ? ? ? ?|intros ?]
  | |- wp (print _ _) _ _ => apply wp_print; [intros ?|intros ?]
  | |- wp (if negb (truthy ?v) then _ else _) _ _ =>
      destruct (truthy v) eqn:?; cbn [negb]
  end.

(* ================================================================== *)
(** * What every run of a handler satisfies *)

(** The bodies that differ only by the name of the object read. *)
Ltac same_object :=
  subst;
  repeat match goal with
         | H : VDict _ = VDict _ |- _ => injection H as H; subst
         | H : Body _ = Body _ |- _ => injection H as H; subst
         end.

Section Runs.




(** Every model call of [ocr] comes from a JSON object and carries the
    composed prompt and the image of the request. *)
Lemma ocr_calls (env : Env) (rq : request) (c : call) :
  In c (snd (ocr env rq)) ->
  exists d,
    rq = Body (VDict d)
    /\ messages c
       = ocr_messages
           (ocr_system_prompt env (field d "previousContext" (VStr []))
              (field d "nextContext" (VStr [])))
           (field d "image" (VStr [])).
Proof.
  revert c. unfold ocr.
  apply (wp_try_except _
           (fun out => forall c, In c (snd out) ->
              exists d,
                rq = Body (VDict d)
                /\ messages c
                   = ocr_messages
                       (ocr_system_prompt env
                          (field d "previousContext" (VStr []))
                          (field d "nextContext" (VStr [])))
                       (field d "image" (VStr [])))).
  do 11 (try wp_step; try (cbv beta iota; simpl; now intros ?)).
  unfold ocr_pipeline.
  repeat (try wp_step; try (cbv beta iota; simpl; now intros ?)).
  all: cbv beta iota; simpl; intros c [<- | []]; same_object.
  all: eexists; split; reflexivity.
Qed.

(** Every model call of [convert_format] comes from a JSON object and
    carries the template chosen from [targetFormat], whose default is
    ['tex']. *)
Lemma convert_calls (env : Env) (rq : request) (c : call) :
  In c (snd (convert_format env rq)) ->
  exists d,
    rq = Body (VDict d)
    /\ messages c
       = convert_messages
           (convert_prompt env (field d "targetFormat" (VStr (lit "tex")))
              (field d "content" (VStr []))).
Proof.
  revert c. unfold convert_format.
  apply (wp_try_except _
           (fun out => forall c, In c (snd out) ->
              exists d,
                rq = Body (VDict d)
                /\ messages c
                   = convert_messages
                       (convert_prompt env
                          (field d "targetFormat" (VStr (lit "tex")))
                          (field d "content" (VStr []))))).
  do 9 (try wp_step; try (cbv beta iota; simpl; now intros ?)).
  unfold convert_pipeline.
  repeat (try wp_step; try (cbv beta iota; simpl; now intros ?)).
  all: cbv beta iota; simpl; intros c [<- | []]; same_object.
  all: eexists; split; reflexivity.
Qed.

(** The only 400 of [convert_format] is the one for a missing
    [content]. *)
Lemma convert_400 (env : Env) (rq : request) :
  status (fst (convert_format env rq)) = 400%Z ->
  exists d,
    rq = Body (VDict d) /\ truthy (field d "content" (VStr [])) = false.
Proof.
  unfold convert_format.
  apply (wp_try_except _
           (fun out => status (fst out) = 400%Z ->
              exists d,
                rq = Body (VDict d)
                /\ truthy (field d "content" (VStr [])) = false)).
  do 9 (try wp_step; try (cbv beta iota; simpl; discriminate)).
  unfold convert_pipeline.
  repeat (try wp_step; try (cbv beta iota; simpl; discriminate)).
  cbv beta iota. intros _. same_object.
  eexists. split; [reflexivity | eassumption].
Qed.

End Runs.

(* ================================================================== *)
(** * The claims of the specification *)

(** C1, as stated, fails: [analyze] resolves the vision block only
    after the explanation call has been made.  With a usable
    [reasoningConfig] and no [visionConfig] the request ends in the 401,
    but one model call is in the log. *)
Lemma C1_counterexample :
  ~ fails_closed_without_call (Stub.returning (lit "E")) Analyze
      [(lit "context", VStr (lit "F=ma"));
       (lit "reasoningConfig", Stub.config "k" "m")].
Proof.
  intros H. destruct H as [_ Hlog].
  - exists "visionConfig"%string. split.
    + right. left. reflexivity.
    + left. reflexivity.
  - vm_compute in Hlog. discriminate Hlog.
Qed.

(** C1, amended.  For a request whose JSON body is an object with its
    required input present:
    - if the block the endpoint resolves first ([reasoningConfig] for
      [analyze] and [convert_format], [visionConfig] for [ocr]) is
      absent or has an absent or empty [apiKey], the response is the
      configuration error with status 401 and no model call is made;
    - for [analyze] with a usable [reasoningConfig] and a rejected
      [visionConfig], the explanation call is made first; when it
      returns a text, the response is the vision configuration error
      with status 401 and that call is the only one made. *)
Theorem C1_config_missing_is_401 (env : Env) (d : list (str * value)) :
  (forall ep,
     truthy (field d (input_key ep) (VStr [])) = true ->
     unconfigured (field d (first_config_key ep) (VDict [])) ->
     serve env ep (Body (VDict d)) = (first_config_missing ep, []))
  /\
  (forall text rest,
     let context := field d "context" (VStr []) in
     let full_context := field d "fullContext" (VStr []) in
     let reasoning_config := field d "reasoningConfig" (VDict []) in
     let explain :=
       call_with reasoning_config
         (explanation_messages
            (explanation_prompt (fmt env context) (fmt env full_context)))
         None in
     truthy context = true ->
     configured reasoning_config ->
     client_builds env reasoning_config ->
     chat_create env [] explain = Completion (Some text :: rest) ->
     unconfigured (field d "visionConfig" (VDict [])) ->
     analyze env (Body (VDict d)) = (vision_missing, [explain])).
Proof.
  split.
  - intros ep Hin Hcfg. destruct ep; simpl in Hin, Hcfg |- *.
    + rewrite analyze_object. unfold try_except, analyze_pipeline.
      rewrite Hin. cbn [negb].
      now rewrite (bind_ok _ _ _ _ _ (has_api_key_unconfigured _ _ Hcfg)).
    + rewrite convert_format_object. unfold try_except, convert_pipeline.
      rewrite Hin. cbn [negb].
      now rewrite (bind_ok _ _ _ _ _ (has_api_key_unconfigured _ _ Hcfg)).
    + rewrite ocr_object. unfold try_except, ocr_pipeline.
      rewrite Hin. cbn [negb].
      now rewrite (bind_ok _ _ _ _ _ (has_api_key_unconfigured _ _ Hcfg)).
  - intros text rest context full_context reasoning_config explain
      Hin Hcfg Hbuild Hreply Hvision.
    rewrite analyze_object. unfold try_except, analyze_pipeline.
    fold context full_context reasoning_config.
    rewrite Hin. cbn [negb].
    rewrite (bind_ok _ _ _ _ _ (has_api_key_configured _ _ Hcfg)).
    cbn [negb].
    destruct (make_client_builds env reasoning_config [] Hcfg Hbuild)
      as (k & u & m & Hclient & Hcall).
    rewrite (bind_ok _ _ _ _ _ Hclient).
    assert (Hc : Call k u m
                   (explanation_messages
                      (explanation_prompt (fmt env context) (fmt env full_context)))
                   None = explain) by apply Hcall.
    rewrite <- Hc in Hreply.
    rewrite (bind_ok _ _ _ _ _ (create_returns env _ _ _ _ _ _ _ Hreply)).
    rewrite Hc.
    unfold first_content, strip_content, bind at 1 2, ret at 1 2.
    unfold analyze_visualize.
    now rewrite (bind_ok _ _ _ _ _ (has_api_key_unconfigured _ _ Hvision)).
Qed.

Lemma C1_config_missing_is_401_witness :
  serve (Stub.returning (lit "E")) Ocr
    (Body (VDict [(lit "image", VStr (lit "data:image/png;base64,AAAA"))]))
  = (vision_missing, [])
  /\
  (exists c,
     analyze (Stub.returning (lit "E"))
       (Body (VDict [(lit "context", VStr (lit "F=ma"));
                     (lit "reasoningConfig", Stub.config "k" "m")]))
     = (vision_missing, [c])).
Proof.
  split.
  - apply (C1_config_missing_is_401 (Stub.returning (lit "E"))
             [(lit "image", VStr (lit "data:image/png;base64,AAAA"))]).
    + reflexivity.
    + left. reflexivity.
  - eexists.
    apply (C1_config_missing_is_401 (Stub.returning (lit "E"))
             [(lit "context", VStr (lit "F=ma"));
              (lit "reasoningConfig", Stub.config "k" "m")])
      with (text := lit "E") (rest := []).
    + reflexivity.
    + eexists. split; reflexivity.
    + reflexivity.
    + reflexivity.
    + left. reflexivity.
Defined.




(** C3: on the reply [```html\n<div/>\n```] the visualization clean-up
    of [analyze] removes the two fences but keeps the two newlines: it
    returns [\n<div/>\n], not [<div/>].  Unlike the clean-ups of
    [convert_format] and [ocr] it has no final [strip()]; the response
    of [analyze] carries the untrimmed text. *)
Theorem C3_html_fence_leaves_newlines :
  clean_visualization Stub.html_reply = nl ++ lit "<div/>" ++ nl
  /\ clean_visualization Stub.html_reply <> lit "<div/>"
  /\ fst (analyze (Stub.returning Stub.html_reply)
            (Body (VDict [(lit "context", VStr (lit "F=ma"));
                          (lit "reasoningConfig", Stub.config "k" "m");
                          (lit "visionConfig", Stub.config "k" "m")])))
     = Response
         (VDict [(lit "explanation", VStr Stub.html_reply);
                 (lit "visualization", VStr (nl ++ lit "<div/>" ++ nl))])
         200.
Proof.
  split; [|split].
  - reflexivity.
  - vm_compute. discriminate.
  - vm_compute. reflexivity.
Qed.

(** C4: the conversion clean-up is not total.  On a reply that is a
    tagged opener with no newline after it, [split('\n', 1)] has one
    element and [[1]] raises [IndexError]; [convert_format] answers
    500 with that exception's text.  The clean-ups of [analyze] and
    [ocr] slice by length instead and do return on the same kind of
    reply. *)
Theorem C4_convert_cleanup_raises_without_newline :
  clean_converted (lit "```latex") = None
  /\ fst (convert_format (Stub.returning (lit "```latex"))
            (Body (VDict [(lit "content", VStr (lit "# Title"));
                          (lit "reasoningConfig", Stub.config "k" "m")])))
     = error (lit "list index out of range") 500
  /\ clean_latex (lit "```latex") = []
  /\ clean_visualization (lit "```html") = [].
Proof.
  repeat split; vm_compute; reflexivity.
Qed.

(** C5, as stated, fails: a body that is well-formed JSON but not an
    object (here the empty array) has no [get]; the [AttributeError] is
    caught and the answer is a 500. *)
Lemma C5_counterexample :
  ~ rejects_missing_input (Stub.returning (lit "E")) Analyze (VList []).
Proof.
  intros H. specialize (H I). discriminate H.
Qed.

(** C5, amended: for every request whose JSON body is an object in
    which the endpoint's required field ([context], [content], [image])
    is absent or false, the response is that endpoint's validation
    error with status 400 and no model call is made.  Nothing is
    assumed about the configuration blocks: the test precedes their
    resolution, for [ocr] as for the other two. *)
Theorem C5_missing_input_is_rejected (env : Env) (ep : endpoint)
    (d : list (str * value)) :
  truthy (field d (input_key ep) (VStr [])) = false ->
  serve env ep (Body (VDict d)) = (validation_error ep, []).
Proof.
  intros H. destruct ep; simpl in H |- *.
  - rewrite analyze_object. unfold try_except, analyze_pipeline.
    now rewrite H.
  - rewrite convert_format_object. unfold try_except, convert_pipeline.
    now rewrite H.
  - rewrite ocr_object. unfold try_except, ocr_pipeline.
    now rewrite H.
Qed.

Lemma C5_missing_input_is_rejected_witness :
  serve (Stub.returning (lit "E")) Ocr
    (Body (VDict [(lit "image", VStr []); (lit "visionConfig", VStr (lit "?"))]))
  = (error (lit "No image provided") 400, []).
Proof.
  apply (C5_missing_input_is_rejected (Stub.returning (lit "E")) Ocr).
  reflexivity.
Defined.



(** C7: every model call of [ocr] carries the prompt composed from the
    [previousContext] and [nextContext] of the request, which is the
    base prompt followed by one block per non-empty context window.  A
    true [previousContext] contributes a block made of its text and the
    continuity instruction, and so does a true [nextContext]; when both
    are empty the prompt is the base prompt, in which neither block
    heading nor any instruction line occurs. *)
Theorem C7_ocr_stitching (env : Env) :
  (forall rq c,
     In c (snd (ocr env rq)) ->
     exists d,
       rq = Body (VDict d)
       /\ messages c
          = ocr_messages
              (ocr_system_prompt env (field d "previousContext" (VStr []))
                 (field d "nextContext" (VStr [])))
              (field d "image" (VStr [])))
  /\
  (forall previous_context next_context,
     let prompt := ocr_system_prompt env previous_context next_context in
     (truthy previous_context = true ->
      substring (previous_block (fmt env previous_context)) prompt
      /\ substring (fmt env previous_context) prompt
      /\ substring previous_instruction prompt)
     /\
     (truthy next_context = true ->
      substring (next_block (fmt env next_context)) prompt
      /\ substring (fmt env next_context) prompt
      /\ substring next_instruction prompt)
     /\
     (truthy previous_context = false -> truthy next_context = false ->
      prompt = ocr_base_prompt
      /\ ~ substring (lit "PREVIOUS CONTEXT") prompt
      /\ ~ substring (lit "NEXT CONTEXT") prompt
      /\ ~ substring (lit "INSTRUCTION:") prompt)).
Proof.
  split; [intros rq c; apply ocr_calls|].
  intros previous_context next_context prompt.
  split; [|split].
  - intros Hp.
    assert (Hb : substring (previous_block (fmt env previous_context)) prompt).
    { unfold prompt, ocr_system_prompt. rewrite Hp.
      destruct (truthy next_context).
      - apply substring_app_l, substring_app_r, substring_refl.
      - apply substring_app_r, substring_refl. }
    destruct (previous_block_parts (fmt env previous_context)) as [Ht Hi].
    split; [exact Hb|]. split; eapply substring_trans; eassumption.
  - intros Hn.
    assert (Hb : substring (next_block (fmt env next_context)) prompt).
    { unfold prompt, ocr_system_prompt. rewrite Hn.
      apply substring_app_r, substring_refl. }
    destruct (next_block_parts (fmt env next_context)) as [Ht Hi].
    split; [exact Hb|]. split; eapply substring_trans; eassumption.
  - intros Hp Hn.
    assert (E : prompt = ocr_base_prompt).
    { unfold prompt, ocr_system_prompt. now rewrite Hp, Hn. }
    rewrite E.
    destruct base_prompt_has_no_stitching as (H1 & H2 & H3).
    split; [reflexivity|].
    split; [|split]; apply not_contains; assumption.
Qed.

Lemma C7_ocr_stitching_witness :
  let env := Stub.returning Stub.latex_reply in
  let before := VStr (lit "Thus $E = mc^2$") in
  let after := VStr (lit "where $c$ is") in
  let rq := Body (VDict [(lit "image", VStr (lit "<data>"));
                         (lit "visionConfig", Stub.config "k" "m");
                         (lit "previousContext", before)]) in
  (exists c,
     snd (ocr env rq) = [c]
     /\ messages c
        = ocr_messages (ocr_system_prompt env before (VStr []))
            (VStr (lit "<data>")))
  /\ substring (lit "Thus $E = mc^2$") (ocr_system_prompt env before after)
  /\ substring previous_instruction (ocr_system_prompt env before after)
  /\ substring (lit "where $c$ is") (ocr_system_prompt env before after)
  /\ substring next_instruction (ocr_system_prompt env before after)
  /\ ~ substring (lit "INSTRUCTION:") (ocr_system_prompt env (VStr []) (VStr [])).
Proof.
  intros env before after rq.
  destruct (C7_ocr_stitching env) as [Hcall Hprompt].
  destruct (Hprompt before after) as (Hp & Hn & _).
  destruct (Hprompt (VStr []) (VStr [])) as (_ & _ & He).
  destruct (Hp eq_refl) as (_ & Hp1 & Hp2).
  destruct (Hn eq_refl) as (_ & Hn1 & Hn2).
  destruct (He eq_refl eq_refl) as (_ & _ & _ & He').
  repeat split; try assumption.
  eexists. split; [reflexivity|].
  destruct (Hcall rq _ (or_introl eq_refl)) as (d & Hd & Hm).
  injection Hd as <-. exact Hm.
Defined.

(** C8: an [ocr] request with a non-empty image and a usable
    [visionConfig] (such as [{apiKey: "k", model: "m"}]), whose model
    call returns the text [```latex\n$x^2$\n```], is answered with
    exactly [{latex: "$x^2$"}] and status 200. *)
Theorem C8_ocr_end_to_end (env : Env) (d : list (str * value))
    (more : list (option str)) :
  let image_data := field d "image" (VStr []) in
  let vision_config := field d "visionConfig" (VDict []) in
  let recognise :=
    call_with vision_config
      (ocr_messages
         (ocr_system_prompt env (field d "previousContext" (VStr []))
            (field d "nextContext" (VStr [])))
         image_data)
      (Some 2000%Z) in
  truthy image_data = true ->
  configured vision_config ->
  client_builds env vision_config ->
  chat_create env [] recognise = Completion (Some Stub.latex_reply :: more) ->
  ocr env (Body (VDict d))
  = (Response (VDict [(lit "latex", VStr (lit "$x^2$"))]) 200, [recognise]).
Proof.
  intros image_data vision_config recognise Hin Hcfg Hbuild Hreply.
  rewrite (ocr_called env d Hin Hcfg Hbuild).
  fold image_data vision_config recognise. rewrite Hreply.
  reflexivity.
Qed.

Lemma C8_ocr_end_to_end_witness :
  fst (ocr (Stub.returning Stub.latex_reply)
         (Body (VDict [(lit "image", VStr (lit "<data>"));
                       (lit "visionConfig", Stub.config "k" "m")])))
  = Response (VDict [(lit "latex", VStr (lit "$x^2$"))]) 200.
Proof.
  rewrite (C8_ocr_end_to_end (Stub.returning Stub.latex_reply)
             [(lit "image", VStr (lit "<data>"));
              (lit "visionConfig", Stub.config "k" "m")] []).
  - reflexivity.
  - reflexivity.
  - eexists. split; reflexivity.
  - reflexivity.
  - reflexivity.
Defined.



(** C10: [targetFormat] defaults to ['tex'] when the field is absent;
    the string ['tex'] selects the LaTeX template and every other
    value, ['md'] or not, selects the Markdown template, which is a
    different text; the chosen template is what the model call
    carries; and the only 400 of [convert_format] is the one for a
    missing [content], so no value of [targetFormat] leads to it. *)
Theorem C10_target_format (env : Env) :
  (forall d,
     lookup (lit "targetFormat") d = None ->
     field d "targetFormat" (VStr (lit "tex")) = VStr (lit "tex"))
  /\
  (forall content,
     convert_prompt env (VStr (lit "tex")) content
     = tex_prompt (fmt env content))
  /\
  (forall target_format content,
     target_format <> VStr (lit "tex") ->
     convert_prompt env target_format content = md_prompt (fmt env content))
  /\
  (forall content, tex_prompt content <> md_prompt content)
  /\
  (forall rq c,
     In c (snd (convert_format env rq)) ->
     exists d,
       rq = Body (VDict d)
       /\ messages c
          = convert_messages
              (convert_prompt env (field d "targetFormat" (VStr (lit "tex")))
                 (field d "content" (VStr []))))
  /\
  (forall rq,
     status (fst (convert_format env rq)) = 400%Z ->
     exists d,
       rq = Body (VDict d) /\ truthy (field d "content" (VStr [])) = false).
Proof.
  split; [|split; [|split; [|split; [|split]]]].
  - intros d H. unfold field. now rewrite H.
  - reflexivity.
  - intros target_format content H. unfold convert_prompt.
    destruct (eq_str target_format (lit "tex")) eqn:E; [|reflexivity].
    apply eq_str_true in E. contradiction.
  - apply templates_differ.
  - intros rq c. apply convert_calls.
  - intros rq. apply convert_400.
Qed.

Lemma C10_target_format_witness :
  let env := Stub.returning (lit "# Title") in
  let content := VStr (lit "\section{Title}") in
  convert_prompt env (field [(lit "content", content)] "targetFormat"
                        (VStr (lit "tex"))) content
    = tex_prompt (lit "\section{Title}")
  /\ convert_prompt env (VStr (lit "md")) content
     = md_prompt (lit "\section{Title}")
  /\ convert_prompt env (VStr (lit "docx")) content
     = md_prompt (lit "\section{Title}")
  /\ (exists c,
        snd (convert_format env (Stub.convert_request content (VInt 7))) = [c]
        /\ messages c
           = convert_messages (md_prompt (lit "\section{Title}"))).
Proof.
  intros env content.
  destruct (C10_target_format env) as (Hd & Ht & Hm & _ & Hc & _).
  split; [|split; [|split]].
  - rewrite (Hd [(lit "content", content)] eq_refl). apply Ht.
  - apply Hm. discriminate.
  - apply Hm. discriminate.
  - eexists. split; [reflexivity|].
    destruct (Hc (Stub.convert_request content (VInt 7)) _ (or_introl eq_refl))
      as (d & Hdict & Hmsg).
    injection Hdict as <-. rewrite Hmsg. reflexivity.
Defined.

(* ================================================================== *)
(** * Further facts about the string operations *)

Section MoreStringFacts.

Lemma lstrip_suffix (s : str) : exists pre, s = pre ++ lstrip s.
Proof.
  induction s as [|c s [pre IH]]; simpl.
  - now exists [].
  - destruct (isspace c).
    + exists (c :: pre). simpl. now rewrite <- IH.
    + now exists [].
Qed.

Lemma rstrip_prefix (s : str) : exists post, s = rstrip s ++ post.
Proof.
  unfold rstrip. destruct (lstrip_suffix (rev s)) as [pre H].
  exists (rev pre).
  rewrite <- rev_app_distr, <- H. now rewrite rev_involutive.
Qed.

Lemma substring_strip (s : str) : substring (strip s) s.
Proof.
  unfold strip.
  destruct (lstrip_suffix s) as [pre H].
  destruct (rstrip_prefix (lstrip s)) as [post H'].
  exists pre, post. now rewrite <- H'.
Qed.

Lemma substring_slice_from (n : nat) (s : str) : substring (slice_from n s) s.
Proof.
  exists (firstn n s), []. unfold slice_from.
  now rewrite app_nil_r, firstn_skipn.
Qed.

Lemma substring_slice_to_neg (n : nat) (s : str) :
  substring (slice_to_neg n s) s.
Proof.
  exists [], (skipn (List.length s - n) s). unfold slice_to_neg.
  simpl. now rewrite firstn_skipn.
Qed.

(** [split('\n', 1)] cuts at the first newline: the pieces, put back
    around a newline, give the string. *)
Lemma split_nl_1_second (s t : str) :
  nth_error (split_nl_1 s) 1 = Some t ->
  exists h, s = h ++ nl ++ t /\ ~ In 10%N h.
Proof.
  revert t. induction s as [|c s IH]; intros t; simpl.
  - discriminate.
  - destruct (c =? 10)%N eqn:E.
    + apply N.eqb_eq in E as ->. intros [= <-]. exists []. split; auto.
    + destruct (split_nl_1 s) as [|h0 rest] eqn:Hs; simpl.
      * discriminate.
      * intros H. destruct (IH t H) as (h & -> & Hh).
        exists (c :: h). split; [reflexivity|].
        intros [Hc | Hin]; [|contradiction].
        rewrite Hc, N.eqb_refl in E. discriminate E.
Qed.

(** There is a second piece exactly when the string holds a newline. *)
Lemma split_nl_1_none (s : str) :
  nth_error (split_nl_1 s) 1 = None <-> ~ In 10%N s.
Proof.
  induction s as [|c s IH]; simpl.
  - split; auto.
  - destruct (c =? 10)%N eqn:E.
    + apply N.eqb_eq in E as ->. split; [discriminate|].
      intros H. exfalso. apply H. now left.
    + apply N.eqb_neq in E.
      destruct (split_nl_1 s) as [|h0 rest] eqn:Hs; simpl in *.
      * split; [|reflexivity]. intros _ [H | H]; [congruence|].
        apply IH; auto.
      * rewrite IH. split.
        -- intros H [H' | H']; [congruence | contradiction].
        -- intros H H'. apply H. now right.
Qed.

Lemma lstrip_length (s : str) : (List.length (lstrip s) <= List.length s)%nat.
Proof.
  induction s as [|c s IH]; simpl; [lia|].
  destruct (isspace c); simpl; lia.
Qed.

Lemma rstrip_length (s : str) : (List.length (rstrip s) <= List.length s)%nat.
Proof.
  unfold rstrip. rewrite length_rev.
  etransitivity; [apply lstrip_length|]. now rewrite length_rev.
Qed.

Lemma lstrip_same_length (s : str) :
  List.length (lstrip s) = List.length s -> lstrip s = s.
Proof.
  destruct s as [|c s]; simpl; [reflexivity|].
  destruct (isspace c); [|reflexivity].
  intros H. pose proof (lstrip_length s). lia.
Qed.

(** A string that [strip()] leaves alone is left alone by each of its
    two halves. *)
Lemma strip_fixed_sides (s : str) :
  strip s = s -> lstrip s = s /\ rstrip s = s.
Proof.
  intros H.
  assert (L : lstrip s = s).
  { apply lstrip_same_length.
    pose proof (lstrip_length s). pose proof (rstrip_length (lstrip s)).
    unfold strip in H. rewrite H in *. lia. }
  split; [exact L|]. unfold strip in H. now rewrite L in H.
Qed.

Lemma lstrip_app_fixed (s t : str) :
  s <> [] -> lstrip s = s -> lstrip (s ++ t) = s ++ t.
Proof.
  destruct s as [|c s]; [congruence|]. intros _. simpl.
  destruct (isspace c) eqn:E; [|reflexivity].
  intros H. pose proof (lstrip_length s). rewrite H in *. simpl in *. lia.
Qed.

Lemma rstrip_app_fixed (s t : str) :
  t <> [] -> rstrip t = t -> rstrip (s ++ t) = s ++ t.
Proof.
  intros Ht H. unfold rstrip in *.
  rewrite rev_app_distr.
  rewrite lstrip_app_fixed.
  - now rewrite <- rev_app_distr, rev_involutive.
  - intros E. apply Ht. now rewrite <- (rev_involutive t), E.
  - rewrite <- H at 2. now rewrite rev_involutive.
Qed.

Lemma endswith_app (s p : str) : endswith (s ++ p) p = true.
Proof.
  unfold endswith. rewrite rev_app_distr.
  apply startswith_spec. now exists (rev s).
Qed.

Lemma slice_to_neg_app (s p : str) :
  slice_to_neg (List.length p) (s ++ p) = s.
Proof.
  unfold slice_to_neg. rewrite length_app.
  replace (List.length s + List.length p - List.length p)%nat
    with (List.length s + 0)%nat by lia.
  rewrite firstn_app_2. simpl. now rewrite app_nil_r.
Qed.

End MoreStringFacts.

(* ================================================================== *)
(** * Further facts about the clean-up functions *)

Section MoreSanitizerFacts.

Lemma strip_framed (p x q : str) :
  p <> [] -> lstrip p = p -> q <> [] -> rstrip q = q ->
  strip (p ++ x ++ q) = p ++ x ++ q.
Proof.
  intros Hp Lp Hq Rq. unfold strip.
  rewrite (lstrip_app_fixed p (x ++ q) Hp Lp).
  rewrite app_assoc. now apply rstrip_app_fixed.
Qed.

(** A trimmed text on a line of its own, or followed by a newline,
    comes back under [strip()]. *)
Lemma strip_own_line (x : str) :
  strip x = x -> strip (nl ++ x ++ nl) = x /\ strip (x ++ nl) = x.
Proof.
  intros H. apply strip_fixed_sides in H as [L R].
  assert (E : strip (x ++ nl) = x).
  { destruct x as [|c x]; [reflexivity|].
    unfold strip. rewrite lstrip_app_fixed by (congruence || assumption).
    unfold rstrip in *. rewrite rev_app_distr. simpl rev at 2.
    change ([10%N] ++ rev (c :: x)) with (10%N :: rev (c :: x)).
    now cbn [lstrip isspace]. }
  split; [|exact E]. exact E.
Qed.

(** The closing steps of a clean-up on a text that ends with a fence
    and does not begin with one. *)
Lemma close_fence (x : str) :
  startswith (x ++ fence) fence = false ->
  strip
    (let v := x ++ fence in
     let v := if startswith v fence then slice_from 3 v else v in
     let v := if endswith v fence then slice_to_neg 3 v else v in
     v)
  = strip x.
Proof.
  intros H. cbv zeta. rewrite H, endswith_app.
  change 3%nat with (List.length fence). now rewrite slice_to_neg_app.
Qed.

Lemma split_nl_1_app (h t : str) :
  ~ In 10%N h -> split_nl_1 (h ++ nl ++ t) = [h; t].
Proof.
  induction h as [|c h IH]; intros H.
  - reflexivity.
  - simpl. destruct (c =? 10)%N eqn:E.
    + apply N.eqb_eq in E. exfalso. apply H. now left.
    + change (h ++ 10%N :: t) with (h ++ nl ++ t).
      rewrite IH; [reflexivity|]. intros Hin. apply H. now right.
Qed.

(** A text that does not begin with a fence does not begin with one
    when a newline follows it. *)
Lemma no_fence_before_newline (b t : str) :
  startswith b fence = false -> startswith (b ++ nl ++ t) fence = false.
Proof.
  change fence with [96%N; 96%N; 96%N]. unfold nl.
  destruct b as [|c1 [|c2 [|c3 b]]]; cbn [app startswith];
    change (96 =? 10)%N with false;
    repeat match goal with
           | |- context [(96 =? ?c)%N] => destruct (96 =? c)%N
           end; cbn [andb]; try congruence.
  destruct b; discriminate.
Qed.

End MoreSanitizerFacts.

(* ================================================================== *)
(** * Further properties of the clean-up functions *)

(** X1: a clean-up only removes text from the two ends of the reply:
    what each of the three returns is a contiguous part of the raw
    reply, so no character is added, altered or reordered. *)
Theorem X1_cleanup_returns_part_of_reply (raw : str) :
  substring (clean_visualization raw) raw
  /\ (forall y, clean_converted raw = Some y -> substring y raw)
  /\ substring (clean_latex raw) raw.
Proof.
  assert (Hopen : forall v, substring
                    (if startswith v fence then slice_from 3 v else v) v).
  { intros v. destruct (startswith v fence);
      [apply substring_slice_from | apply substring_refl]. }
  assert (Hclose : forall v, substring
                     (if endswith v fence then slice_to_neg 3 v else v) v).
  { intros v. destruct (endswith v fence);
      [apply substring_slice_to_neg | apply substring_refl]. }
  split; [|split].
  - unfold clean_visualization. cbv zeta.
    eapply substring_trans; [apply Hclose|].
    eapply substring_trans; [apply Hopen|].
    eapply substring_trans; [|apply substring_strip].
    destruct (startswith (strip raw) (lit "```html"));
      [apply substring_slice_from | apply substring_refl].
  - intros y. unfold clean_converted.
    destruct (startswith (strip raw) (lit "```latex")
              || startswith (strip raw) (lit "```markdown")).
    + destruct (nth_error (split_nl_1 (strip raw)) 1) as [t|] eqn:E;
        [|discriminate].
      intros [= <-].
      apply split_nl_1_second in E as (h & E & _).
      eapply substring_trans; [apply substring_strip|].
      eapply substring_trans; [apply Hclose|].
      eapply substring_trans; [apply Hopen|].
      eapply substring_trans; [|apply substring_strip].
      rewrite E. exists (h ++ nl), []. now rewrite app_nil_r, <- app_assoc.
    + intros [= <-].
      eapply substring_trans; [apply substring_strip|].
      eapply substring_trans; [apply Hclose|].
      eapply substring_trans; [apply Hopen|].
      apply substring_strip.
  - unfold clean_latex. cbv zeta.
    eapply substring_trans; [apply substring_strip|].
    eapply substring_trans; [apply Hclose|].
    eapply substring_trans; [apply Hopen|].
    eapply substring_trans; [|apply substring_strip].
    destruct (startswith (strip raw) (lit "```latex"));
      [apply substring_slice_from | apply substring_refl].
Qed.

Lemma X1_cleanup_returns_part_of_reply_witness :
  substring (lit "$x^2$") Stub.latex_reply.
Proof.
  destruct (X1_cleanup_returns_part_of_reply Stub.latex_reply) as (_ & H & _).
  apply (H (lit "$x^2$")). reflexivity.
Defined.

(** X2: a reply that, once stripped, neither starts nor ends with a
    fence passes through every clean-up as its stripped text; the
    conversion clean-up does not raise on it. *)
Theorem X2_unfenced_reply_passes_through (raw : str) :
  fence_free (strip raw) ->
  clean_visualization raw = strip raw
  /\ clean_converted raw = Some (strip raw)
  /\ clean_latex raw = strip raw.
Proof.
  intros Hf. pose proof (strip_idem raw) as Hs.
  split; [|split].
  - transitivity (clean_visualization (strip raw)).
    + unfold clean_visualization. now rewrite Hs.
    + now apply clean_visualization_fixed.
  - transitivity (clean_converted (strip raw)).
    + unfold clean_converted. now rewrite Hs.
    + now apply clean_converted_fixed.
  - transitivity (clean_latex (strip raw)).
    + unfold clean_latex. now rewrite Hs.
    + now apply clean_latex_fixed.
Qed.

Lemma X2_unfenced_reply_passes_through_witness :
  clean_visualization (lit "  <div>ok</div> " ++ nl) = lit "<div>ok</div>"
  /\ clean_converted (lit "  <div>ok</div> " ++ nl) = Some (lit "<div>ok</div>")
  /\ clean_latex (lit "  <div>ok</div> " ++ nl) = lit "<div>ok</div>".
Proof.
  apply (X2_unfenced_reply_passes_through (lit "  <div>ok</div> " ++ nl)).
  split; reflexivity.
Defined.

(** X3: the conversion clean-up raises exactly when the stripped reply
    opens with [```latex] or [```markdown] and holds no newline; on
    every other reply it returns. *)
Theorem X3_convert_cleanup_raises_iff (raw : str) :
  clean_converted raw = None
  <-> (startswith (strip raw) (lit "```latex")
       || startswith (strip raw) (lit "```markdown") = true
       /\ ~ In 10%N (strip raw)).
Proof.
  unfold clean_converted.
  destruct (startswith (strip raw) (lit "```latex")
            || startswith (strip raw) (lit "```markdown")).
  - destruct (nth_error (split_nl_1 (strip raw)) 1) as [t|] eqn:E.
    + split; [discriminate|]. intros [_ H].
      apply split_nl_1_none in H. congruence.
    + split; [|reflexivity]. intros _. split; [reflexivity|].
      now apply split_nl_1_none.
  - split; [discriminate | intros [H _]; discriminate H].
Qed.

Lemma X3_convert_cleanup_raises_iff_witness :
  clean_converted (lit "  ```markdown # Title ```  ") = None.
Proof.
  apply (X3_convert_cleanup_raises_iff (lit "  ```markdown # Title ```  ")).
  split; [reflexivity|]. vm_compute. intuition discriminate.
Defined.

(** X4: a trimmed payload wrapped in a fence on lines of its own is
    recovered exactly: by the [ocr] clean-up for the openers [```latex]
    and [```], and by the conversion clean-up for the opener [```] and,
    when the payload does not itself begin with a fence, for the
    openers [```latex] and [```markdown]. *)
Theorem X4_fenced_payload_is_recovered (b : str) :
  strip b = b ->
  clean_latex (lit "```latex" ++ nl ++ b ++ nl ++ fence) = b
  /\ clean_latex (fence ++ nl ++ b ++ nl ++ fence) = b
  /\ clean_converted (fence ++ nl ++ b ++ nl ++ fence) = Some b
  /\ (startswith b fence = false ->
      clean_converted (lit "```latex" ++ nl ++ b ++ nl ++ fence) = Some b
      /\ clean_converted (lit "```markdown" ++ nl ++ b ++ nl ++ fence) = Some b).
Proof.
  intros Hb. destruct (strip_own_line b Hb) as [Hline Htail].
  assert (Hw : forall opener : str,
             opener <> [] -> lstrip opener = opener ->
             strip (opener ++ nl ++ b ++ nl ++ fence)
             = opener ++ nl ++ b ++ nl ++ fence).
  { intros opener H1 H2.
    replace (opener ++ nl ++ b ++ nl ++ fence)
      with (opener ++ (nl ++ b ++ nl) ++ fence)
      by now rewrite <- !app_assoc.
    apply strip_framed; auto; discriminate. }
  assert (Hrest : nl ++ b ++ nl ++ fence = (nl ++ b ++ nl) ++ fence)
    by now rewrite <- !app_assoc.
  assert (Hclose : strip
            (let v := nl ++ b ++ nl ++ fence in
             let v := if startswith v fence then slice_from 3 v else v in
             let v := if endswith v fence then slice_to_neg 3 v else v in
             v) = b).
  { rewrite Hrest, close_fence; [exact Hline | reflexivity]. }
  split; [|split; [|split]].
  - unfold clean_latex. rewrite Hw by (discriminate || reflexivity).
    exact Hclose.
  - unfold clean_latex. rewrite Hw by (discriminate || reflexivity).
    cbv zeta.
    change (startswith (fence ++ nl ++ b ++ nl ++ fence) (lit "```latex"))
      with false. cbv iota.
    change (startswith (fence ++ nl ++ b ++ nl ++ fence) fence) with true.
    cbv iota.
    change (slice_from 3 (fence ++ nl ++ b ++ nl ++ fence))
      with (nl ++ b ++ nl ++ fence).
    rewrite Hrest, endswith_app.
    change 3%nat with (List.length fence). rewrite slice_to_neg_app.
    exact Hline.
  - unfold clean_converted. rewrite Hw by (discriminate || reflexivity).
    change (startswith (fence ++ nl ++ b ++ nl ++ fence) (lit "```latex"))
      with false.
    change (startswith (fence ++ nl ++ b ++ nl ++ fence) (lit "```markdown"))
      with false.
    cbn [orb]. cbv iota zeta.
    change (startswith (fence ++ nl ++ b ++ nl ++ fence) fence) with true.
    cbv iota.
    change (slice_from 3 (fence ++ nl ++ b ++ nl ++ fence))
      with (nl ++ b ++ nl ++ fence).
    rewrite Hrest, endswith_app.
    change 3%nat with (List.length fence). rewrite slice_to_neg_app.
    now rewrite Hline.
  - intros Hstart.
    assert (Hbody : strip
              (let v := b ++ nl ++ fence in
               let v := if startswith v fence then slice_from 3 v else v in
               let v := if endswith v fence then slice_to_neg 3 v else v in
               v) = b).
    { cbv zeta. rewrite (no_fence_before_newline b fence Hstart).
      rewrite app_assoc, endswith_app.
      change 3%nat with (List.length fence). rewrite slice_to_neg_app.
      exact Htail. }
    cbv zeta in Hbody.
    split.
    + unfold clean_converted. rewrite Hw by (discriminate || reflexivity).
      change (startswith (lit "```latex" ++ nl ++ b ++ nl ++ fence)
                (lit "```latex")) with true.
      cbn [orb]. cbv iota.
      rewrite split_nl_1_app by (vm_compute; intuition discriminate).
      cbn [nth_error]. cbv zeta. now rewrite Hbody.
    + unfold clean_converted. rewrite Hw by (discriminate || reflexivity).
      change (startswith (lit "```markdown" ++ nl ++ b ++ nl ++ fence)
                (lit "```latex")) with false.
      change (startswith (lit "```markdown" ++ nl ++ b ++ nl ++ fence)
                (lit "```markdown")) with true.
      cbn [orb]. cbv iota.
      rewrite split_nl_1_app by (vm_compute; intuition discriminate).
      cbn [nth_error]. cbv zeta. now rewrite Hbody.
Qed.

Lemma X4_fenced_payload_is_recovered_witness :
  clean_latex (lit "```latex" ++ nl ++ lit "\frac{a}{b}" ++ nl ++ fence)
    = lit "\frac{a}{b}"
  /\ clean_converted (lit "```markdown" ++ nl ++ lit "# Title" ++ nl ++ fence)
     = Some (lit "# Title").
Proof.
  split.
  - apply (X4_fenced_payload_is_recovered (lit "\frac{a}{b}")). reflexivity.
  - apply (X4_fenced_payload_is_recovered (lit "# Title")); reflexivity.
Defined.

(** X5: on a payload wrapped in [```html] and a closing fence, each on
    a line of its own, the visualization clean-up returns the payload
    between the two newlines that followed the opener and preceded the
    closing fence, whatever the payload is. *)
Theorem X5_html_payload_keeps_its_newlines (b : str) :
  clean_visualization (lit "```html" ++ nl ++ b ++ nl ++ fence)
  = nl ++ b ++ nl.
Proof.
  assert (Hw : strip (lit "```html" ++ nl ++ b ++ nl ++ fence)
               = lit "```html" ++ nl ++ b ++ nl ++ fence).
  { replace (lit "```html" ++ nl ++ b ++ nl ++ fence)
      with (lit "```html" ++ (nl ++ b ++ nl) ++ fence)
      by now rewrite <- !app_assoc.
    apply strip_framed; (discriminate || reflexivity). }
  unfold clean_visualization. rewrite Hw. cbv zeta.
  change (startswith (lit "```html" ++ nl ++ b ++ nl ++ fence) (lit "```html"))
    with true. cbv iota.
  change (slice_from 7 (lit "```html" ++ nl ++ b ++ nl ++ fence))
    with (nl ++ b ++ nl ++ fence).
  change (startswith (nl ++ b ++ nl ++ fence) fence) with false. cbv iota.
  replace (nl ++ b ++ nl ++ fence) with ((nl ++ b ++ nl) ++ fence)
    by now rewrite <- !app_assoc.
  rewrite endswith_app.
  change 3%nat with (List.length fence). apply slice_to_neg_app.
Qed.

(* ================================================================== *)
(** * Further properties of the handlers *)

(** X6: a request costs at most two model calls on [analyze] and at
    most one on [convert_format] and [ocr], whatever the request and
    whatever the model answers. *)
Theorem X6_model_calls_are_bounded (env : Env) (rq : request) :
  (List.length (snd (analyze env rq)) <= 2)%nat
  /\ (List.length (snd (convert_format env rq)) <= 1)%nat
  /\ (List.length (snd (ocr env rq)) <= 1)%nat.
Proof.
  split; [|split].
  - unfold analyze.
    apply (wp_try_except _ (fun out => (List.length (snd out) <= 2)%nat)).
    do 11 (try wp_step; try (cbv beta iota; simpl; lia)).
    unfold analyze_pipeline, analyze_visualize.
    repeat (try wp_step; try (cbv beta iota; simpl; lia)).
  - unfold convert_format.
    apply (wp_try_except _ (fun out => (List.length (snd out) <= 1)%nat)).
    do 9 (try wp_step; try (cbv beta iota; simpl; lia)).
    unfold convert_pipeline.
    repeat (try wp_step; try (cbv beta iota; simpl; lia)).
  - unfold ocr.
    apply (wp_try_except _ (fun out => (List.length (snd out) <= 1)%nat)).
    do 11 (try wp_step; try (cbv beta iota; simpl; lia)).
    unfold ocr_pipeline.
    repeat (try wp_step; try (cbv beta iota; simpl; lia)).
Qed.

(** X7: a response with status 400 is only ever sent for a JSON object
    whose required field is absent or false; it is then the endpoint's
    validation error, and no model call was made. *)
Theorem X7_status_400_means_missing_input (env : Env) (ep : endpoint)
    (rq : request) :
  status (fst (serve env ep rq)) = 400%Z ->
  exists d,
    rq = Body (VDict d)
    /\ truthy (field d (input_key ep) (VStr [])) = false
    /\ serve env ep rq = (validation_error ep, []).
Proof.
  destruct ep; simpl serve; simpl input_key; simpl validation_error.
  - unfold analyze.
    apply (wp_try_except _
             (fun out => status (fst out) = 400%Z ->
                exists d,
                  rq = Body (VDict d)
                  /\ truthy (field d "context" (VStr [])) = false
                  /\ out = (error (lit "No context provided") 400, []))).
    do 11 (try wp_step; try (cbv beta iota; simpl; discriminate)).
    unfold analyze_pipeline, analyze_visualize.
    repeat (try wp_step; try (cbv beta iota; simpl; discriminate)).
    cbv beta iota. intros _. same_object.
    eexists. split; [reflexivity|]. split; [eassumption | reflexivity].
  - unfold convert_format.
    apply (wp_try_except _
             (fun out => status (fst out) = 400%Z ->
                exists d,
                  rq = Body (VDict d)
                  /\ truthy (field d "content" (VStr [])) = false
                  /\ out = (error (lit "No content provided") 400, []))).
    do 9 (try wp_step; try (cbv beta iota; simpl; discriminate)).
    unfold convert_pipeline.
    repeat (try wp_step; try (cbv beta iota; simpl; discriminate)).
    cbv beta iota. intros _. same_object.
    eexists. split; [reflexivity|]. split; [eassumption | reflexivity].
  - unfold ocr.
    apply (wp_try_except _
             (fun out => status (fst out) = 400%Z ->
                exists d,
                  rq = Body (VDict d)
                  /\ truthy (field d "image" (VStr [])) = false
                  /\ out = (error (lit "No image provided") 400, []))).
    do 11 (try wp_step; try (cbv beta iota; simpl; discriminate)).
    unfold ocr_pipeline.
    repeat (try wp_step; try (cbv beta iota; simpl; discriminate)).
    cbv beta iota. intros _. same_object.
    eexists. split; [reflexivity|]. split; [eassumption | reflexivity].
Qed.

Lemma X7_status_400_means_missing_input_witness :
  exists d,
    Body (VDict [(lit "image", VInt 0)]) = Body (VDict d)
    /\ truthy (field d "image" (VStr [])) = false
    /\ ocr (Stub.returning Stub.latex_reply) (Body (VDict [(lit "image", VInt 0)]))
       = (error (lit "No image provided") 400, []).
Proof.
  apply (X7_status_400_means_missing_input
           (Stub.returning Stub.latex_reply) Ocr
           (Body (VDict [(lit "image", VInt 0)]))).
  reflexivity.
Defined.

(** Rewrites the calls of a run into the form [call_with config ...]
    and opens the equations left by the clean-up step. *)
Ltac name_calls :=
  same_object;
  repeat match goal with
         | H : forall msgs cap, Call _ _ _ msgs cap = _ |- _ =>
             rewrite H in *; clear H
         | H : Some _ = Some _ |- _ => injection H as H; subst
         end.

(** X8: a response with status 401 is only ever sent for a JSON object
    whose required field is present and one of whose configuration
    blocks is rejected: either the block the endpoint resolves first,
    and then no model call was made, or, on [analyze] with an accepted
    [reasoningConfig], the [visionConfig], and then exactly one call
    was made. *)
Theorem X8_status_401_means_rejected_config (env : Env) (ep : endpoint)
    (rq : request) :
  status (fst (serve env ep rq)) = 401%Z ->
  exists d,
    rq = Body (VDict d)
    /\ truthy (field d (input_key ep) (VStr [])) = true
    /\ ((unconfigured (field d (first_config_key ep) (VDict []))
         /\ serve env ep rq = (first_config_missing ep, []))
        \/
        (ep = Analyze
         /\ configured (field d "reasoningConfig" (VDict []))
         /\ unconfigured (field d "visionConfig" (VDict []))
         /\ exists c, serve env ep rq = (vision_missing, [c]))).
Proof.
  destruct ep; simpl serve; simpl input_key; simpl first_config_key;
    simpl first_config_missing.
  - unfold analyze.
    apply (wp_try_except _
             (fun out => status (fst out) = 401%Z ->
                exists d,
                  rq = Body (VDict d)
                  /\ truthy (field d "context" (VStr [])) = true
                  /\ ((unconfigured (field d "reasoningConfig" (VDict []))
                       /\ out = (reasoning_missing, []))
                      \/
                      (Analyze = Analyze
                       /\ configured (field d "reasoningConfig" (VDict []))
                       /\ unconfigured (field d "visionConfig" (VDict []))
                       /\ exists c, out = (vision_missing, [c]))))).
    do 11 (try wp_step; try (cbv beta iota; simpl; discriminate)).
    unfold analyze_pipeline, analyze_visualize.
    repeat (try wp_step; try (cbv beta iota; simpl; discriminate)).
    all: cbv beta iota; intros _; same_object.
    all: eexists; split; [reflexivity|]; split; [eassumption|].
    + right. repeat split; try assumption. eexists. reflexivity.
    + left. split; [assumption | reflexivity].
  - unfold convert_format.
    apply (wp_try_except _
             (fun out => status (fst out) = 401%Z ->
                exists d,
                  rq = Body (VDict d)
                  /\ truthy (field d "content" (VStr [])) = true
                  /\ ((unconfigured (field d "reasoningConfig" (VDict []))
                       /\ out = (reasoning_missing, []))
                      \/
                      (Convert = Analyze
                       /\ configured (field d "reasoningConfig" (VDict []))
                       /\ unconfigured (field d "visionConfig" (VDict []))
                       /\ exists c, out = (vision_missing, [c]))))).
    do 9 (try wp_step; try (cbv beta iota; simpl; discriminate)).
    unfold convert_pipeline.
    repeat (try wp_step; try (cbv beta iota; simpl; discriminate)).
    cbv beta iota. intros _. same_object.
    eexists. split; [reflexivity|]. split; [eassumption|].
    left. split; [assumption | reflexivity].
  - unfold ocr.
    apply (wp_try_except _
             (fun out => status (fst out) = 401%Z ->
                exists d,
                  rq = Body (VDict d)
                  /\ truthy (field d "image" (VStr [])) = true
                  /\ ((unconfigured (field d "visionConfig" (VDict []))
                       /\ out = (vision_missing, []))
                      \/
                      (Ocr = Analyze
                       /\ configured (field d "reasoningConfig" (VDict []))
                       /\ unconfigured (field d "visionConfig" (VDict []))
                       /\ exists c, out = (vision_missing, [c]))))).
    do 11 (try wp_step; try (cbv beta iota; simpl; discriminate)).
    unfold ocr_pipeline.
    repeat (try wp_step; try (cbv beta iota; simpl; discriminate)).
    cbv beta iota. intros _. same_object.
    eexists. split; [reflexivity|]. split; [eassumption|].
    left. split; [assumption | reflexivity].
Qed.

Lemma X8_status_401_means_rejected_config_witness :
  let rq := Body (VDict [(lit "content", VStr (lit "# Title"));
                         (lit "reasoningConfig",
                          VDict [(lit "apiKey", VStr [])])]) in
  exists d,
    rq = Body (VDict d)
    /\ unconfigured (field d "reasoningConfig" (VDict []))
    /\ convert_format (Stub.returning (lit "x")) rq = (reasoning_missing, []).
Proof.
  intros rq.
  destruct (X8_status_401_means_rejected_config
              (Stub.returning (lit "x")) Convert rq eq_refl)
    as (d & Hd & _ & [[Hu Hr] | (Hep & _)]).
  - exists d. repeat split; assumption.
  - discriminate Hep.
Defined.

(** X9: a response with status 200 from [ocr], or from
    [convert_format], is only ever sent for a JSON object after exactly
    one model call, made with the credentials of the endpoint's
    configuration block; the call returned a text as its first choice,
    and the response carries the clean-up of that text and nothing
    else. *)
Theorem X9_success_carries_the_cleaned_reply (env : Env) (rq : request) :
  (status (fst (ocr env rq)) = 200%Z ->
   exists d raw more,
     let c :=
       call_with (field d "visionConfig" (VDict []))
         (ocr_messages
            (ocr_system_prompt env (field d "previousContext" (VStr []))
               (field d "nextContext" (VStr [])))
            (field d "image" (VStr [])))
         (Some 2000%Z) in
     rq = Body (VDict d)
     /\ chat_create env [] c = Completion (Some raw :: more)
     /\ ocr env rq
        = (Response (VDict [(lit "latex", VStr (clean_latex raw))]) 200, [c]))
  /\
  (status (fst (convert_format env rq)) = 200%Z ->
   exists d raw more converted,
     let c :=
       call_with (field d "reasoningConfig" (VDict []))
         (convert_messages
            (convert_prompt env (field d "targetFormat" (VStr (lit "tex")))
               (field d "content" (VStr []))))
         None in
     rq = Body (VDict d)
     /\ chat_create env [] c = Completion (Some raw :: more)
     /\ clean_converted raw = Some converted
     /\ convert_format env rq
        = (Response (VDict [(lit "converted", VStr converted)]) 200, [c])).
Proof.
  split.
  - unfold ocr.
    apply (wp_try_except _
             (fun out => status (fst out) = 200%Z ->
                exists d raw more,
                  let c :=
                    call_with (field d "visionConfig" (VDict []))
                      (ocr_messages
                         (ocr_system_prompt env
                            (field d "previousContext" (VStr []))
                            (field d "nextContext" (VStr [])))
                         (field d "image" (VStr [])))
                      (Some 2000%Z) in
                  rq = Body (VDict d)
                  /\ chat_create env [] c = Completion (Some raw :: more)
                  /\ out = (Response
                              (VDict [(lit "latex", VStr (clean_latex raw))])
                              200, [c]))).
    do 11 (try wp_step; try (cbv beta iota; simpl; discriminate)).
    unfold ocr_pipeline.
    repeat (try wp_step; try (cbv beta iota; simpl; discriminate)).
    cbv beta iota zeta. intros _. name_calls.
    eexists _, _, _. split; [reflexivity|]. split; [eassumption | reflexivity].
  - unfold convert_format.
    apply (wp_try_except _
             (fun out => status (fst out) = 200%Z ->
                exists d raw more converted,
                  let c :=
                    call_with (field d "reasoningConfig" (VDict []))
                      (convert_messages
                         (convert_prompt env
                            (field d "targetFormat" (VStr (lit "tex")))
                            (field d "content" (VStr []))))
                      None in
                  rq = Body (VDict d)
                  /\ chat_create env [] c = Completion (Some raw :: more)
                  /\ clean_converted raw = Some converted
                  /\ out = (Response
                              (VDict [(lit "converted", VStr converted)])
                              200, [c]))).
    do 9 (try wp_step; try (cbv beta iota; simpl; discriminate)).
    unfold convert_pipeline.
    repeat (try wp_step; try (cbv beta iota; simpl; discriminate)).
    cbv beta iota zeta. intros _. name_calls.
    eexists _, _, _, _. split; [reflexivity|].
    split; [eassumption|]. split; [eassumption | reflexivity].
Qed.

Lemma X9_success_carries_the_cleaned_reply_witness :
  let rq := Body (VDict [(lit "image", VStr (lit "<data>"));
                         (lit "visionConfig", Stub.config "k" "m")]) in
  exists raw,
    fst (ocr (Stub.returning Stub.latex_reply) rq)
    = Response (VDict [(lit "latex", VStr (clean_latex raw))]) 200.
Proof.
  intros rq.
  destruct (X9_success_carries_the_cleaned_reply
              (Stub.returning Stub.latex_reply) rq) as [H _].
  destruct (H eq_refl) as (d & raw & more & _ & _ & E).
  exists raw. now rewrite E.
Defined.

(** X10: a response with status 200 from [analyze] is only ever sent
    for a JSON object after exactly two model calls: the explanation
    call with the credentials of [reasoningConfig], then the
    visualization call with those of [visionConfig], whose prompt holds
    the stripped explanation.  Both returned a text as first choice;
    the response carries the stripped first text as [explanation] and
    the clean-up of the second as [visualization]. *)
Theorem X10_analyze_success (env : Env) (rq : request) :
  status (fst (analyze env rq)) = 200%Z ->
  exists d text1 more1 text2 more2,
    let context := fmt env (field d "context" (VStr [])) in
    let full_context := fmt env (field d "fullContext" (VStr [])) in
    let c1 :=
      call_with (field d "reasoningConfig" (VDict []))
        (explanation_messages (explanation_prompt context full_context))
        None in
    let c2 :=
      call_with (field d "visionConfig" (VDict []))
        (viz_messages (viz_prompt context (strip text1) full_context))
        None in
    rq = Body (VDict d)
    /\ chat_create env [] c1 = Completion (Some text1 :: more1)
    /\ chat_create env [c1] c2 = Completion (Some text2 :: more2)
    /\ analyze env rq
       = (Response
            (VDict [(lit "explanation", VStr (strip text1));
                    (lit "visualization", VStr (clean_visualization text2))])
            200,
          [c1; c2]).
Proof.
  unfold analyze.
  apply (wp_try_except _
           (fun out => status (fst out) = 200%Z ->
              exists d text1 more1 text2 more2,
                let context := fmt env (field d "context" (VStr [])) in
                let full_context := fmt env (field d "fullContext" (VStr [])) in
                let c1 :=
                  call_with (field d "reasoningConfig" (VDict []))
                    (explanation_messages
                       (explanation_prompt context full_context))
                    None in
                let c2 :=
                  call_with (field d "visionConfig" (VDict []))
                    (viz_messages
                       (viz_prompt context (strip text1) full_context))
                    None in
                rq = Body (VDict d)
                /\ chat_create env [] c1 = Completion (Some text1 :: more1)
                /\ chat_create env [c1] c2 = Completion (Some text2 :: more2)
                /\ out
                   = (Response
                        (VDict [(lit "explanation", VStr (strip text1));
                                (lit "visualization",
                                 VStr (clean_visualization text2))])
                        200,
                      [c1; c2]))).
  do 11 (try wp_step; try (cbv beta iota; simpl; discriminate)).
  unfold analyze_pipeline, analyze_visualize.
  repeat (try wp_step; try (cbv beta iota; simpl; discriminate)).
  cbv beta iota zeta. intros _. name_calls.
  eexists _, _, _, _, _. split; [reflexivity|].
  split; [eassumption|]. split; [eassumption | reflexivity].
Qed.

Lemma X10_analyze_success_witness :
  let rq := Body (VDict [(lit "context", VStr (lit "F=ma"));
                         (lit "reasoningConfig", Stub.config "k" "m");
                         (lit "visionConfig", Stub.config "k" "v")]) in
  exists text1 text2,
    fst (analyze (Stub.returning Stub.html_reply) rq)
    = Response
        (VDict [(lit "explanation", VStr (strip text1));
                (lit "visualization", VStr (clean_visualization text2))])
        200.
Proof.
  intros rq.
  destruct (X10_analyze_success (Stub.returning Stub.html_reply) rq eq_refl)
    as (d & text1 & more1 & text2 & more2 & _ & _ & _ & E).
  exists text1, text2. now rewrite E.
Defined.

(** X11: every model call is built from the configuration block of its
    own role, on every run, failed or not: [convert_format] calls with
    the [apiKey], [baseUrl] and [model] of [reasoningConfig] and no
    token cap, [ocr] with those of [visionConfig] and a cap of 2000
    tokens, and [analyze] with those of [reasoningConfig] for the
    explanation messages and those of [visionConfig] for the
    visualization messages. *)
Theorem X11_calls_use_their_role_block (env : Env) (rq : request) (c : call) :
  (In c (snd (convert_format env rq)) ->
   exists d,
     rq = Body (VDict d)
     /\ c = call_with (field d "reasoningConfig" (VDict []))
              (convert_messages
                 (convert_prompt env (field d "targetFormat" (VStr (lit "tex")))
                    (field d "content" (VStr []))))
              None)
  /\
  (In c (snd (ocr env rq)) ->
   exists d,
     rq = Body (VDict d)
     /\ c = call_with (field d "visionConfig" (VDict []))
              (ocr_messages
                 (ocr_system_prompt env (field d "previousContext" (VStr []))
                    (field d "nextContext" (VStr [])))
                 (field d "image" (VStr [])))
              (Some 2000%Z))
  /\
  (In c (snd (analyze env rq)) ->
   exists d,
     rq = Body (VDict d)
     /\ (c = call_with (field d "reasoningConfig" (VDict []))
               (explanation_messages
                  (explanation_prompt (fmt env (field d "context" (VStr [])))
                     (fmt env (field d "fullContext" (VStr [])))))
               None
         \/
         exists explanation,
           c = call_with (field d "visionConfig" (VDict []))
                 (viz_messages
                    (viz_prompt (fmt env (field d "context" (VStr [])))
                       explanation
                       (fmt env (field d "fullContext" (VStr [])))))
                 None)).
Proof.
  split; [|split].
  - revert c. unfold convert_format.
    apply (wp_try_except _
             (fun out => forall c, In c (snd out) ->
                exists d,
                  rq = Body (VDict d)
                  /\ c = call_with (field d "reasoningConfig" (VDict []))
                           (convert_messages
                              (convert_prompt env
                                 (field d "targetFormat" (VStr (lit "tex")))
                                 (field d "content" (VStr []))))
                           None)).
    do 9 (try wp_step; try (cbv beta iota; simpl; now intros ?)).
    unfold convert_pipeline.
    repeat (try wp_step; try (cbv beta iota; simpl; now intros ?)).
    all: cbv beta iota; simpl; intros c [<- | []]; name_calls.
    all: eexists; split; reflexivity.
  - revert c. unfold ocr.
    apply (wp_try_except _
             (fun out => forall c, In c (snd out) ->
                exists d,
                  rq = Body (VDict d)
                  /\ c = call_with (field d "visionConfig" (VDict []))
                           (ocr_messages
                              (ocr_system_prompt env
                                 (field d "previousContext" (VStr []))
                                 (field d "nextContext" (VStr [])))
                              (field d "image" (VStr [])))
                           (Some 2000%Z))).
    do 11 (try wp_step; try (cbv beta iota; simpl; now intros ?)).
    unfold ocr_pipeline.
    repeat (try wp_step; try (cbv beta iota; simpl; now intros ?)).
    all: cbv beta iota; simpl; intros c [<- | []]; name_calls.
    all: eexists; split; reflexivity.
  - revert c. unfold analyze.
    apply (wp_try_except _
             (fun out => forall c, In c (snd out) ->
                exists d,
                  rq = Body (VDict d)
                  /\ (c = call_with (field d "reasoningConfig" (VDict []))
                            (explanation_messages
                               (explanation_prompt
                                  (fmt env (field d "context" (VStr [])))
                                  (fmt env (field d "fullContext" (VStr [])))))
                            None
                      \/
                      exists explanation,
                        c = call_with (field d "visionConfig" (VDict []))
                              (viz_messages
                                 (viz_prompt
                                    (fmt env (field d "context" (VStr [])))
                                    explanation
                                    (fmt env (field d "fullContext" (VStr [])))))
                              None))).
    do 11 (try wp_step; try (cbv beta iota; simpl; now intros ?)).
    unfold analyze_pipeline, analyze_visualize.
    repeat (try wp_step; try (cbv beta iota; simpl; now intros ?)).
    all: cbv beta iota; simpl; intros c Hc; name_calls.
    all: eexists; split; [reflexivity|].
    all: repeat destruct Hc as [Hc | Hc]; try contradiction; subst c.
    all: first [ left; reflexivity | right; eexists; reflexivity ].
Qed.

Lemma X11_calls_use_their_role_block_witness :
  let rq := Body (VDict [(lit "context", VStr (lit "F=ma"));
                         (lit "reasoningConfig", Stub.config "r" "gpt");
                         (lit "visionConfig", Stub.config "v" "gemini")]) in
  exists c,
    nth_error (snd (analyze (Stub.returning (lit "E")) rq)) 1 = Some c
    /\ api_key c = VStr (lit "v") /\ model c = VStr (lit "gemini").
Proof.
  intros rq. eexists. split; [reflexivity|].
  match goal with
  | |- api_key ?c = _ /\ _ =>
      destruct (X11_calls_use_their_role_block (Stub.returning (lit "E")) rq c)
        as (_ & _ & H)
  end.
  destruct H as (d & Hd & [E | [e E]]).
  - right. left. reflexivity.
  - injection Hd as <-. vm_compute in E. discriminate E.
  - split; reflexivity.
Defined.

(* ================================================================== *)
(** * Failures before and at the model call *)


(** X12: a request whose body is not a JSON object never reaches a
    model.  When [request.json] raises, the answer is 500 with that
    exception's text; when the body parses to something else than an
    object (null, a number, a string, an array), the answer is 500 with
    the [AttributeError] of the missing [get]. *)
Theorem X12_body_that_is_not_an_object (env : Env) (ep : endpoint) :
  (forall msg, serve env ep (BadBody msg) = (error msg 500, []))
  /\
  (forall data,
     (forall d, data <> VDict d) ->
     serve env ep (Body data) = (error (no_get data) 500, [])).
Proof.
  split.
  - intros msg. destruct ep; reflexivity.
  - intros data H. destruct ep; destruct data; try reflexivity;
      exfalso; eapply H; reflexivity.
Qed.

Lemma X12_body_that_is_not_an_object_witness :
  analyze (Stub.returning (lit "E")) (Body VNone)
  = (error (lit "'NoneType' object has no attribute 'get'") 500, []).
Proof.
  apply (X12_body_that_is_not_an_object (Stub.returning (lit "E")) Analyze).
  intros d. discriminate.
Defined.

(** X13: when the required input is present and the configuration
    block the endpoint resolves first is a true value that is not an
    object (a non-empty string or array, a non-zero number, [true]),
    the answer is 500 with the [AttributeError] of the missing [get],
    not the 401, and no model call is made. *)
Theorem X13_config_block_of_wrong_type (env : Env) (ep : endpoint)
    (d : list (str * value)) :
  let config := field d (first_config_key ep) (VDict []) in
  truthy (field d (input_key ep) (VStr [])) = true ->
  truthy config = true ->
  (forall c, config <> VDict c) ->
  serve env ep (Body (VDict d)) = (error (no_get config) 500, []).
Proof.
  intros config Hin Ht Hnot.
  assert (Hkey : has_api_key config []
                 = (Raise (AttributeError (type_name config) (lit "get")), [])).
  { unfold has_api_key. rewrite Ht.
    destruct config; try reflexivity. exfalso. eapply Hnot. reflexivity. }
  destruct ep; simpl in Hin, config |- *.
  - rewrite analyze_object. unfold try_except, analyze_pipeline.
    rewrite Hin. cbn [negb]. unfold bind at 1. fold config. now rewrite Hkey.
  - rewrite convert_format_object. unfold try_except, convert_pipeline.
    rewrite Hin. cbn [negb]. unfold bind at 1. fold config. now rewrite Hkey.
  - rewrite ocr_object. unfold try_except, ocr_pipeline.
    rewrite Hin. cbn [negb]. unfold bind at 1. fold config. now rewrite Hkey.
Qed.

Lemma X13_config_block_of_wrong_type_witness :
  ocr (Stub.returning Stub.latex_reply)
    (Body (VDict [(lit "image", VStr (lit "<data>"));
                  (lit "visionConfig", VStr (lit "sk-123"))]))
  = (error (lit "'str' object has no attribute 'get'") 500, []).
Proof.
  apply (X13_config_block_of_wrong_type (Stub.returning Stub.latex_reply) Ocr
           [(lit "image", VStr (lit "<data>"));
            (lit "visionConfig", VStr (lit "sk-123"))]).
  - reflexivity.
  - reflexivity.
  - intros c. discriminate.
Defined.





(* ================================================================== *)
(** * Further properties of the prompts *)

(** X16: every prompt holds the caller's texts verbatim, as contiguous
    runs: the explanation prompt holds [context] and [fullContext], the
    visualization prompt holds both as well, and both conversion
    templates hold [content]. *)
Theorem X16_prompts_embed_their_inputs (context full_context explanation
    content : str) :
  substring context (explanation_prompt context full_context)
  /\ substring full_context (explanation_prompt context full_context)
  /\ substring context (viz_prompt context explanation full_context)
  /\ substring full_context (viz_prompt context explanation full_context)
  /\ substring content (tex_prompt content)
  /\ substring content (md_prompt content).
Proof.
  repeat split; apply in_concat_substring;
    unfold explanation_prompt, viz_prompt, tex_prompt, md_prompt;
    cbn [In]; repeat first [left; reflexivity | right].
Qed.

(** X17: whatever [targetFormat] and [content] are, the conversion
    prompt holds the rule that keeps [\textcolor{color}{text}] and the
    rule against code fences: both templates carry them. *)
Theorem X17_conversion_rules_in_both_templates (env : Env)
    (target_format content : value) :
  let prompt := convert_prompt env target_format content in
  substring (lit "\textcolor{color}{text}") prompt
  /\ substring (lit "7. Do not include markdown code fences.") prompt.
Proof.
  assert (Hpiece : forall (marker piece : str) (pieces : list str),
             contains piece marker = true -> In piece pieces ->
             substring marker (List.concat pieces)).
  { intros marker piece pieces Hc Hin.
    eapply substring_trans; [apply contains_spec, Hc|].
    now apply in_concat_substring. }
  intros prompt. unfold prompt, convert_prompt.
  destruct (eq_str target_format (lit "tex")).
  - split.
    + apply (Hpiece _ (lit "               - Keep `\textcolor{color}{text}` as is."));
        [reflexivity|].
      unfold tex_prompt. cbn [In]. repeat first [left; reflexivity | right].
    + apply (Hpiece _ (lit "            7. Do not include markdown code fences."));
        [reflexivity|].
      unfold tex_prompt. cbn [In]. repeat first [left; reflexivity | right].
  - split.
    + apply (Hpiece _ (lit "               - **KEEP** `\textcolor{color}{text}` commands AS IS. "));
        [reflexivity|].
      unfold md_prompt. cbn [In]. repeat first [left; reflexivity | right].
    + apply (Hpiece _ (lit "            7. Do not include markdown code fences."));
        [reflexivity|].
      unfold md_prompt. cbn [In]. repeat first [left; reflexivity | right].
Qed.
